(** * FirebaseAuthManager: session management over an identity provider

    A shallow embedding of [src/services/auth/FirebaseAuthManager.ts].

    The class is a thin layer between two collaborators that live outside
    the file: the host controller ([ClineProvider]) and the identity
    provider client ([firebase/app], [firebase/auth]).  Every method of the
    class is an [async] function (or a constructor that starts such
    functions); it is embedded as a state-and-exception computation over a
    [World] that holds the objects the class touches and the ordered list of
    calls it has made on its collaborators and on the console.

    Every asynchronous method is embedded twice, and the two are proved to
    agree:
    - as a [Task], the method run without interruption: each [await e]
      runs [e] to settlement before the next statement;
    - as an [Async] computation, the method with its suspension points: a
      call runs up to the first [await], and each later resumption runs up
      to the next one.  A [System] holds the suspended executions, and a
      schedule decides which one the event loop resumes next, so that
      executions which overlap are covered.

    Further conventions:
    - a call on a collaborator takes effect when it is made; what is
      awaited is only its result;
    - a rejected promise and a thrown exception are both [Thrown];
    - JavaScript truthiness is written out where the source branches on a
      value that may be a string ([if (storedToken)]). *)

From Stdlib Require Import String List Bool Arith Lia.
Import ListNotations.
Open Scope string_scope.
Open Scope list_scope.

(** ** Data model *)

(** [export interface UserInfo] (lines 16-20): three nullable strings. *)
Record UserInfo : Type := {
  displayName : option string;
  email : option string;
  photoURL : option string
}.

(** Modelled from the spec: the identity-provider client (the packages
    [firebase/app] and [firebase/auth]) is imported by the source but is not
    part of it.  The spec lists what is consumed from it: "app
    initialization by static configuration, session-persistence mode
    setting, auth-state-change subscription, current-user accessor,
    custom-token sign-in, sign-out".  Whether a request succeeds is decided
    outside the program, so the answers are a parameter ([Backend]); the
    client's own state ([Auth]) keeps the current user, the persistence mode
    and the registered auth-state observers. *)
Module firebase.

Definition FirebaseError := string.
Definition FirebaseOptions := list (string * string).

(** The fields of the provider's [User] object that the source reads. *)
Record User : Type := {
  uid : string;
  displayName : option string;
  email : option string;
  photoURL : option string
}.

Inductive Persistence : Type := browserLocalPersistence.

Record Auth : Type := {
  currentUser : option User;
  persistence : option Persistence;
  observers : list nat
}.

(** The answers of the remote service and of the SDK's configuration
    checks: [None] / [inr] is success, [Some e] / [inl e] a failure. *)
Record Backend : Type := {
  initializeApp_error : option FirebaseError;
  getAuth_error : option FirebaseError;
  setPersistence_error : option FirebaseError;
  signInWithCustomToken_answer : string -> FirebaseError + User;
  signOut_error : option FirebaseError
}.

Definition setPersistence (be : Backend) (a : Auth) (p : Persistence)
  : FirebaseError + Auth :=
  match setPersistence_error be with
  | Some e => inl e
  | None => inr {| currentUser := currentUser a;
                   persistence := Some p;
                   observers := observers a |}
  end.

(** Subscribing returns the handle with which the subscription could be
    cancelled, and the client with the observer added. *)
Definition onAuthStateChanged (a : Auth) : nat * Auth :=
  let id := S (list_max (observers a)) in
  (id, {| currentUser := currentUser a;
          persistence := persistence a;
          observers := observers a ++ [id] |}).

Definition unsubscribe (id : nat) (a : Auth) : Auth :=
  {| currentUser := currentUser a;
     persistence := persistence a;
     observers := filter (fun o => negb (Nat.eqb o id)) (observers a) |}.

Definition signInWithCustomToken (be : Backend) (a : Auth) (token : string)
  : FirebaseError + Auth :=
  match signInWithCustomToken_answer be token with
  | inl e => inl e
  | inr u => inr {| currentUser := Some u;
                    persistence := persistence a;
                    observers := observers a |}
  end.

Definition signOut (be : Backend) (a : Auth) : FirebaseError + Auth :=
  match signOut_error be with
  | Some e => inl e
  | None => inr {| currentUser := None;
                   persistence := persistence a;
                   observers := observers a |}
  end.

End firebase.

(** Modelled from the spec: the host controller ([ClineProvider], imported
    from [../../core/webview/ClineProvider]) is not under src.  The spec
    gives its interface: "[getSecret(key) -> text or absent] reads persisted
    token", "[setAuthToken(text or absent)] writes/clears persisted token",
    "[setUserInfo(UserProfile or absent)] writes/clears profile in host
    state", "[postStateToWebview()] pushes full host state to presentation
    layer".  No failure of these operations is specified, so they are
    total. *)
Module ClineProvider.

Record State : Type := {
  authToken : option string;
  userInfo : option UserInfo
}.

Record t : Type := {
  state : State;
  webview : list State
}.

Definition getSecret (key : string) (p : t) : option string :=
  if String.eqb key "authToken" then authToken (state p) else None.

Definition setAuthToken (token : option string) (p : t) : t :=
  {| state := {| authToken := token; userInfo := userInfo (state p) |};
     webview := webview p |}.

Definition setUserInfo (info : option UserInfo) (p : t) : t :=
  {| state := {| authToken := authToken (state p); userInfo := info |};
     webview := webview p |}.

Definition postStateToWebview (p : t) : t :=
  {| state := state p; webview := webview p ++ [state p] |}.

End ClineProvider.

(** [vscode.Disposable]: an object with a [dispose()] method.  The one the
    class could make itself is the subscription handle that
    [onAuthStateChanged] returns.  Any other disposable is a resource
    outside the objects of this model: disposing it shows as a call, and
    that call may throw. *)
Module vscode.

Inductive Disposable : Type :=
| Unsubscribe (id : nat)
| Resource (name : string) (error : option firebase.FirebaseError).

End vscode.

(** ** Calls observed from outside *)

(** The second argument of a [console.log] call. *)
Inductive LogData : Type :=
| NoData
| DataProvider (p : ClineProvider.t)
| DataAppConfig (c : firebase.FirebaseOptions)
| DataUser (u : option firebase.User)
| DataUserId (id : string)
| DataToken (t : string)
| DataCount (n : nat).

Inductive Call : Type :=
| Console_log (msg : string) (data : LogData)
| Console_error (msg : string) (e : firebase.FirebaseError)
| Firebase_initializeApp (c : firebase.FirebaseOptions)
| Firebase_getAuth
| Firebase_setPersistence (p : firebase.Persistence)
| Firebase_onAuthStateChanged
| Firebase_signInWithCustomToken (token : string)
| Firebase_signOut
| Firebase_unsubscribe (id : nat)
| Resource_dispose (name : string)
| Provider_getSecret (key : string)
| Provider_setAuthToken (token : option string)
| Provider_setUserInfo (info : option UserInfo)
| Provider_postStateToWebview.

(** Classification of calls, used to state what an operation did not do. *)
Definition is_console (c : Call) : bool :=
  match c with
  | Console_log _ _ | Console_error _ _ => true
  | _ => false
  end.

Definition is_provider_call (c : Call) : bool :=
  match c with
  | Provider_getSecret _ | Provider_setAuthToken _
  | Provider_setUserInfo _ | Provider_postStateToWebview => true
  | _ => false
  end.

Definition is_provider_write (c : Call) : bool :=
  match c with
  | Provider_setAuthToken _ | Provider_setUserInfo _ => true
  | _ => false
  end.

Definition is_getSecret (c : Call) : bool :=
  match c with Provider_getSecret _ => true | _ => false end.

Definition is_setAuthToken (c : Call) : bool :=
  match c with Provider_setAuthToken _ => true | _ => false end.

Definition is_token_store (c : Call) : bool :=
  match c with Provider_setAuthToken (Some _) => true | _ => false end.

Definition is_signIn (c : Call) : bool :=
  match c with Firebase_signInWithCustomToken _ => true | _ => false end.

Definition is_signOut (c : Call) : bool :=
  match c with Firebase_signOut => true | _ => false end.

(** The tokens passed to the provider's sign-in, in call order. *)
Fixpoint signIn_tokens (cs : list Call) : list string :=
  match cs with
  | [] => []
  | Firebase_signInWithCustomToken t :: cs' => t :: signIn_tokens cs'
  | _ :: cs' => signIn_tokens cs'
  end.

(** ** The world the manager runs in *)

Record World : Type := {
  provider : ClineProvider.t;          (* the object [providerRef] points to *)
  provider_alive : bool;               (* does [providerRef.deref()] resolve *)
  auth : firebase.Auth;                (* [this.auth] *)
  disposables : list vscode.Disposable;(* [this.disposables] *)
  calls : list Call                    (* calls made so far, oldest first *)
}.

Definition set_provider (p : ClineProvider.t) (w : World) : World :=
  {| provider := p; provider_alive := provider_alive w; auth := auth w;
     disposables := disposables w; calls := calls w |}.

Definition set_provider_alive (b : bool) (w : World) : World :=
  {| provider := provider w; provider_alive := b; auth := auth w;
     disposables := disposables w; calls := calls w |}.

Definition set_auth (a : firebase.Auth) (w : World) : World :=
  {| provider := provider w; provider_alive := provider_alive w; auth := a;
     disposables := disposables w; calls := calls w |}.

Definition set_disposables (ds : list vscode.Disposable) (w : World) : World :=
  {| provider := provider w; provider_alive := provider_alive w;
     auth := auth w; disposables := ds; calls := calls w |}.

Definition record (c : Call) (w : World) : World :=
  {| provider := provider w; provider_alive := provider_alive w;
     auth := auth w; disposables := disposables w;
     calls := calls w ++ [c] |}.

(** ** Asynchronous functions as state-and-exception computations *)

Inductive Outcome (A : Type) : Type :=
| Returned (a : A)
| Thrown (e : firebase.FirebaseError).

Arguments Returned {A} a.
Arguments Thrown {A} e.

Definition Task (A : Type) : Type := World -> Outcome A * World.

Definition ret {A} (a : A) : Task A := fun w => (Returned a, w).

Definition throw {A} (e : firebase.FirebaseError) : Task A :=
  fun w => (Thrown e, w).

Definition bind {A B} (m : Task A) (k : A -> Task B) : Task B :=
  fun w =>
    match m w with
    | (Returned a, w') => k a w'
    | (Thrown e, w') => (Thrown e, w')
    end.

(** [try { m } catch (error) { h error }] *)
Definition try_catch {A} (m : Task A) (h : firebase.FirebaseError -> Task A)
  : Task A :=
  fun w =>
    match m w with
    | (Returned a, w') => (Returned a, w')
    | (Thrown e, w') => h e w'
    end.

Declare Scope task_scope.
Delimit Scope task_scope with task.
Notation "x <- m ;; k" := (bind m (fun x => k))
  (at level 61, m at next level, right associativity) : task_scope.
Notation "m ;; k" := (bind m (fun _ => k))
  (at level 61, right associativity) : task_scope.
Open Scope task_scope.

Definition emit (c : Call) : Task unit := fun w => (Returned tt, record c w).

Definition console_log (msg : string) (data : LogData) : Task unit :=
  emit (Console_log msg data).

Definition console_error (msg : string) (e : firebase.FirebaseError)
  : Task unit :=
  emit (Console_error msg e).

(** [if (v)] on a [string | undefined]: the empty string is falsy. *)
Definition truthy (v : option string) : option string :=
  match v with
  | Some s => if String.eqb s "" then None else Some s
  | None => None
  end.

Arguments truthy v : simpl never.

(** ** Calls on the collaborators *)

(** [this.providerRef.deref()]: the source only tests the result and then
    calls methods on it, so the result is whether the target still exists;
    the target itself is [provider] of the world. *)
Definition deref : Task bool := fun w => (Returned (provider_alive w), w).

(** [this.auth.currentUser] *)
Definition auth_currentUser : Task (option firebase.User) :=
  fun w => (Returned (firebase.currentUser (auth w)), w).

Definition provider_getSecret (key : string) : Task (option string) :=
  fun w => (Returned (ClineProvider.getSecret key (provider w)),
            record (Provider_getSecret key) w).

Definition provider_setAuthToken (token : option string) : Task unit :=
  fun w => (Returned tt,
            record (Provider_setAuthToken token)
              (set_provider (ClineProvider.setAuthToken token (provider w)) w)).

Definition provider_setUserInfo (info : option UserInfo) : Task unit :=
  fun w => (Returned tt,
            record (Provider_setUserInfo info)
              (set_provider (ClineProvider.setUserInfo info (provider w)) w)).

Definition provider_postStateToWebview : Task unit :=
  fun w => (Returned tt,
            record Provider_postStateToWebview
              (set_provider (ClineProvider.postStateToWebview (provider w)) w)).

(** A request to the identity provider: the call is recorded, then the
    client either moves to its new state or the request fails. *)
Definition request (c : Call)
  (f : firebase.Auth -> firebase.FirebaseError + firebase.Auth) : Task unit :=
  fun w =>
    let w1 := record c w in
    match f (auth w1) with
    | inl e => (Thrown e, w1)
    | inr a => (Returned tt, set_auth a w1)
    end.

(** [d.dispose()]: a subscription handle removes its observer; another
    resource is disposed outside the model, and throws if it is one that
    does. *)
Definition Disposable_dispose (d : vscode.Disposable) : Task unit :=
  match d with
  | vscode.Unsubscribe id =>
      fun w => (Returned tt,
                record (Firebase_unsubscribe id)
                  (set_auth (firebase.unsubscribe id (auth w)) w))
  | vscode.Resource name error =>
      fun w => (match error with
                | Some e => Thrown e
                | None => Returned tt
                end,
                record (Resource_dispose name) w)
  end.

(** [xs.forEach(f)]: an exception thrown by [f] ends the iteration. *)
Fixpoint forEach {A} (xs : list A) (f : A -> Task unit) : Task unit :=
  match xs with
  | [] => ret tt
  | x :: xs' => f x ;; forEach xs' f
  end.

(** ** The class *)

Section FirebaseAuthManager.

(** The answers of the identity provider during the run. *)
Variable be : firebase.Backend.

(** [firebaseConfig], imported from [./config], which is not under src. *)
Variable firebaseConfig : firebase.FirebaseOptions.

(** [async signInWithCustomToken(token)] (lines 125-128) *)
Definition signInWithCustomToken (token : string) : Task unit :=
  console_log "Signing in with custom token" (DataToken token) ;;
  request (Firebase_signInWithCustomToken token)
          (fun a => firebase.signInWithCustomToken be a token).

(** [async signOut()] (lines 130-133) *)
Definition signOut : Task unit :=
  console_log "Signing out" NoData ;;
  request Firebase_signOut (fun a => firebase.signOut be a).

(** [private async restoreSession()] (lines 51-93) *)
Definition restoreSession : Task unit :=
  console_log "Attempting to restore session" NoData ;;
  provider <- deref ;;
  if negb provider then
    console_log "Provider reference lost during session restore" NoData
  else
    currentUser <- auth_currentUser ;;
    match currentUser with
    | Some currentUser =>
        console_log "Found existing Firebase session" NoData ;;
        provider_setUserInfo
          (Some {| displayName := firebase.displayName currentUser;
                   email := firebase.email currentUser;
                   photoURL := firebase.photoURL currentUser |}) ;;
        console_log "Existing session restored" NoData
    | None =>
        storedToken <- provider_getSecret "authToken" ;;
        match truthy storedToken with
        | Some storedToken =>
            console_log
              "Found stored custom token, attempting to restore session"
              NoData ;;
            try_catch
              (signInWithCustomToken storedToken ;;
               console_log "Session restored successfully with custom token"
                 NoData)
              (fun error =>
                 console_error
                   "Failed to restore session with custom token:" error ;;
                 provider_setAuthToken None ;;
                 provider_setUserInfo None ;;
                 try_catch signOut
                   (fun signOutError =>
                      console_error
                        "Error during cleanup after failed session restore:"
                        signOutError))
        | None => console_log "No stored custom token found" NoData
        end
    end.

(** [getCurrentUser()] (lines 95-97) *)
Definition getCurrentUser : Task (option firebase.User) := auth_currentUser.

(** [private async handleAuthStateChange(user)] (lines 99-123) *)
Definition handleAuthStateChange (user : option firebase.User) : Task unit :=
  console_log "Auth state changed" (DataUser user) ;;
  provider <- deref ;;
  if negb provider then
    console_log "Provider reference lost" NoData
  else
    match user with
    | Some user =>
        console_log "User signed in" (DataUserId (firebase.uid user)) ;;
        provider_setUserInfo
          (Some {| displayName := firebase.displayName user;
                   email := firebase.email user;
                   photoURL := firebase.photoURL user |}) ;;
        console_log "User info set in provider" (DataUser (Some user))
    | None =>
        console_log "User signed out" NoData ;;
        provider_setAuthToken None ;;
        provider_setUserInfo None
    end ;;
    provider_postStateToWebview ;;
    console_log "Webview state updated" NoData.

(** [dispose()] (lines 135-138) *)
Definition dispose : Task unit :=
  (fun w => forEach (disposables w) Disposable_dispose w) ;;
  (fun w => console_log "Disposables disposed"
              (DataCount (length (disposables w))) w).

End FirebaseAuthManager.


(** ** Asynchronous functions with their suspension points *)

(** What is left of an execution: it has settled with an outcome, or it is
    suspended at an [await] and, when resumed in the world of that moment,
    runs up to its next suspension point or to its end. *)
#[local] Unset Elimination Schemes.
Inductive Res (A : Type) : Type :=
| Settled (o : Outcome A)
| Suspended (resume : World -> World * Res A).
#[local] Set Elimination Schemes.

Arguments Settled {A} o.
Arguments Suspended {A} resume.

(** Calling an asynchronous function runs it up to its first suspension
    point. *)
Definition Async (A : Type) : Type := World -> World * Res A.

(** A statement without [await]. *)
Definition sync {A} (t : Task A) : Async A :=
  fun w => let (o, w') := t w in (w', Settled o).

(** [await e] for a call [e] on a collaborator: the call is made, then the
    execution is suspended until the result is handed back. *)
Definition await {A} (t : Task A) : Async A :=
  fun w =>
    let (o, w') := t w in (w', Suspended (fun w'' => (w'', Settled o))).

(** [await f()] for an asynchronous function [f] of the class: [f] runs up
    to its first suspension point, and the caller is suspended for as long
    as [f] is, and once more if [f] never was. *)
Definition await_async {A} (m : Async A) : Async A :=
  fun w =>
    let (w', r) := m w in
    (w', match r with
         | Settled o => Suspended (fun w'' => (w'', Settled o))
         | Suspended _ => r
         end).

Fixpoint and_then {A B} (r : Res A) (k : A -> Async B) (w : World)
  : World * Res B :=
  match r with
  | Settled (Returned a) => k a w
  | Settled (Thrown e) => (w, Settled (Thrown e))
  | Suspended resume =>
      (w, Suspended (fun w' => let (w'', r') := resume w' in and_then r' k w''))
  end.

Definition abind {A B} (m : Async A) (k : A -> Async B) : Async B :=
  fun w => let (w', r) := m w in and_then r k w'.

Fixpoint or_catch {A} (r : Res A) (h : firebase.FirebaseError -> Async A)
  (w : World) : World * Res A :=
  match r with
  | Settled (Returned a) => (w, Settled (Returned a))
  | Settled (Thrown e) => h e w
  | Suspended resume =>
      (w, Suspended (fun w' => let (w'', r') := resume w' in or_catch r' h w''))
  end.

(** [try { m } catch (error) { h error }], and [m.catch(h)] on a promise. *)
Definition acatch {A} (m : Async A) (h : firebase.FirebaseError -> Async A)
  : Async A :=
  fun w => let (w', r) := m w in or_catch r h w'.

Declare Scope async_scope.
Delimit Scope async_scope with async.
Notation "x <- m ;; k" := (abind m (fun x => k))
  (at level 61, m at next level, right associativity) : async_scope.
Notation "m ;; k" := (abind m (fun _ => k))
  (at level 61, right associativity) : async_scope.

(** Resume an execution again and again until it settles. *)
Fixpoint settle {A} (r : Res A) (w : World) : Outcome A * World :=
  match r with
  | Settled o => (o, w)
  | Suspended resume => let (w', r') := resume w in settle r' w'
  end.

(** An asynchronous function run without interruption. *)
Definition uninterrupted {A} (m : Async A) : Task A :=
  fun w => let (w', r) := m w in settle r w'.

(** ** The class, with its suspension points *)

Section FirebaseAuthManagerAsync.

Variable be : firebase.Backend.
Variable firebaseConfig : firebase.FirebaseOptions.

(** [async signInWithCustomToken(token)] (lines 125-128) *)
Definition signInWithCustomToken_async (token : string) : Async unit :=
  (sync (console_log "Signing in with custom token" (DataToken token)) ;;
   await (request (Firebase_signInWithCustomToken token)
            (fun a => firebase.signInWithCustomToken be a token)))%async.

(** [async signOut()] (lines 130-133) *)
Definition signOut_async : Async unit :=
  (sync (console_log "Signing out" NoData) ;;
   await (request Firebase_signOut (fun a => firebase.signOut be a)))%async.

(** [private async restoreSession()] (lines 51-93) *)
Definition restoreSession_async : Async unit :=
  (sync (console_log "Attempting to restore session" NoData) ;;
   provider <- sync deref ;;
   if negb provider then
     sync (console_log "Provider reference lost during session restore"
             NoData)
   else
     currentUser <- sync auth_currentUser ;;
     match currentUser with
     | Some currentUser =>
         sync (console_log "Found existing Firebase session" NoData) ;;
         await (provider_setUserInfo
                  (Some {| displayName := firebase.displayName currentUser;
                           email := firebase.email currentUser;
                           photoURL := firebase.photoURL currentUser |})) ;;
         sync (console_log "Existing session restored" NoData)
     | None =>
         storedToken <- await (provider_getSecret "authToken") ;;
         match truthy storedToken with
         | Some storedToken =>
             sync (console_log
                     "Found stored custom token, attempting to restore session"
                     NoData) ;;
             acatch
               (await_async (signInWithCustomToken_async storedToken) ;;
                sync (console_log
                        "Session restored successfully with custom token"
                        NoData))
               (fun error =>
                  sync (console_error
                          "Failed to restore session with custom token:"
                          error) ;;
                  await (provider_setAuthToken None) ;;
                  await (provider_setUserInfo None) ;;
                  acatch (await_async signOut_async)
                    (fun signOutError =>
                       sync (console_error
                               "Error during cleanup after failed session restore:"
                               signOutError)))
         | None => sync (console_log "No stored custom token found" NoData)
         end
     end)%async.

(** [private async handleAuthStateChange(user)] (lines 99-123) *)
Definition handleAuthStateChange_async (user : option firebase.User)
  : Async unit :=
  (sync (console_log "Auth state changed" (DataUser user)) ;;
   provider <- sync deref ;;
   if negb provider then
     sync (console_log "Provider reference lost" NoData)
   else
     match user with
     | Some user =>
         sync (console_log "User signed in" (DataUserId (firebase.uid user))) ;;
         await (provider_setUserInfo
                  (Some {| displayName := firebase.displayName user;
                           email := firebase.email user;
                           photoURL := firebase.photoURL user |})) ;;
         sync (console_log "User info set in provider" (DataUser (Some user)))
     | None =>
         sync (console_log "User signed out" NoData) ;;
         await (provider_setAuthToken None) ;;
         await (provider_setUserInfo None)
     end ;;
     await provider_postStateToWebview ;;
     sync (console_log "Webview state updated" NoData))%async.

(** Calling an asynchronous function without awaiting it, or building a
    promise chain: it runs up to its first suspension point, and what is
    left of it is handed to the event loop. *)
Definition start (m : Async unit) : Task (Res unit) :=
  fun w => let (w', r) := m w in (Returned r, w').

(** The body of [constructor(provider)] (lines 25-49), up to the return of
    [new].  The field initialiser [disposables = []] runs first;
    [new WeakRef(provider)] makes the argument the target of
    [providerRef], alive at that moment; the handle returned by
    [onAuthStateChanged] is dropped.  Two executions are started and not
    awaited: the promise chain on [setPersistence] and [restoreSession()].
    Each has run up to its first suspension point when the constructor
    returns, and the result lists what is left of them. *)
Definition constructor_body (p : ClineProvider.t) : Task (list (Res unit)) :=
  (fun w => (Returned tt, set_disposables [] w)) ;;
  console_log "Initializing FirebaseAuthManager" (DataProvider p) ;;
  (fun w => (Returned tt, set_provider_alive true (set_provider p w))) ;;
  emit (Firebase_initializeApp firebaseConfig) ;;
  match firebase.initializeApp_error be with
  | Some e => throw e
  | None => ret tt
  end ;;
  emit Firebase_getAuth ;;
  match firebase.getAuth_error be with
  | Some e => throw e
  | None => ret tt
  end ;;
  console_log "Firebase app initialized" (DataAppConfig firebaseConfig) ;;
  persistence <-
    start
      (acatch
         (await
            (request (Firebase_setPersistence firebase.browserLocalPersistence)
               (fun a =>
                  firebase.setPersistence be a
                    firebase.browserLocalPersistence)) ;;
          sync (console_log "Firebase persistence set to LOCAL" NoData))%async
         (fun error =>
            sync (console_error "Error setting persistence:" error))) ;;
  (fun w =>
     let '(_, a) := firebase.onAuthStateChanged (auth w) in
     (Returned tt, record Firebase_onAuthStateChanged (set_auth a w))) ;;
  console_log "Auth state change listener added" NoData ;;
  restoration <- start restoreSession_async ;;
  ret [persistence; restoration].

(** The executions in [ts], each resumed until it settles, one after the
    other; a rejection is left unhandled. *)
Definition settle_each (ts : list (Res unit)) (w : World) : World :=
  fold_left (fun w t => snd (settle t w)) ts w.

(** [new FirebaseAuthManager(provider)] together with the two executions
    it starts, taken to their end in the order in which they were started:
    the outcome is that of the constructor body, the world the one in
    which everything the constructor set off has settled. *)
Definition constructor (p : ClineProvider.t) : Task unit :=
  fun w =>
    match constructor_body p w with
    | (Returned ts, w') => (Returned tt, settle_each ts w')
    | (Thrown e, w') => (Thrown e, w')
    end.

End FirebaseAuthManagerAsync.

(** ** The event loop *)

(** The manager's world, the executions suspended at an [await], and the
    rejections nobody handled. *)
Record System : Type := {
  running : World;
  pending : list (Res unit);
  unhandled : list firebase.FirebaseError
}.

(** Resume the [i]-th suspended execution up to its next suspension point.
    It keeps its place if it is suspended again and leaves the list if it
    settles; an index past the end resumes nothing. *)
Fixpoint resume_nth (i : nat) (ts : list (Res unit)) (w : World) {struct ts}
  : World * list (Res unit) * list firebase.FirebaseError :=
  match ts with
  | [] => (w, [], [])
  | t :: ts' =>
      match i with
      | 0 =>
          match t with
          | Settled _ => (w, ts', [])
          | Suspended resume =>
              let (w', r) := resume w in
              match r with
              | Settled (Returned _) => (w', ts', [])
              | Settled (Thrown e) => (w', ts', [e])
              | Suspended _ => (w', r :: ts', [])
              end
          end
      | S i' =>
          let '(w', ts'', es) := resume_nth i' ts' w in (w', t :: ts'', es)
      end
  end.

(** What the event loop does next: the provider delivers an auth-state
    event to the registered callback, or a suspended execution is
    resumed. *)
Inductive Action : Type :=
| Deliver (user : option firebase.User)
| Resume (i : nat).

Definition act (a : Action) (s : System) : System :=
  match a with
  | Deliver user =>
      let (w', r) := handleAuthStateChange_async user (running s) in
      match r with
      | Settled (Returned _) =>
          {| running := w'; pending := pending s; unhandled := unhandled s |}
      | Settled (Thrown e) =>
          {| running := w'; pending := pending s;
             unhandled := unhandled s ++ [e] |}
      | Suspended _ =>
          {| running := w'; pending := pending s ++ [r];
             unhandled := unhandled s |}
      end
  | Resume i =>
      let '(w', ts, es) := resume_nth i (pending s) (running s) in
      {| running := w'; pending := ts; unhandled := unhandled s ++ es |}
  end.

Definition run_schedule (schedule : list Action) (s : System) : System :=
  fold_left (fun s a => act a s) schedule s.

(** A system in which nothing is suspended. *)
Definition idle (w : World) : System :=
  {| running := w; pending := []; unhandled := [] |}.


(** An execution that cannot end in a rejection, wherever it is resumed. *)
Fixpoint harmless {A} (r : Res A) : Prop :=
  match r with
  | Settled (Returned _) => True
  | Settled (Thrown _) => False
  | Suspended resume => forall w : World, harmless (snd (resume w))
  end.

(** ** Running the manager *)

(** The provider delivers a sequence of auth-state events to the callback
    registered at construction, and no two callbacks overlap: each runs
    without interruption before the next event is delivered.  (This is the
    schedule [one_at_a_time] of the event loop below; deliveries that
    overlap are schedules of [run_schedule].) *)
Fixpoint deliver (events : list (option firebase.User)) (w : World) : World :=
  match events with
  | [] => w
  | user :: events' => deliver events' (snd (handleAuthStateChange user w))
  end.

(** What can happen to a constructed manager, one thing at a time: one of
    its methods runs without interruption (the provider answering as [be]
    says), the provider delivers an auth-state event, or the host
    controller is reclaimed. *)
Inductive Step : Type :=
| RestoreSession (be : firebase.Backend)
| GetCurrentUser
| AuthStateChange (user : option firebase.User)
| SignInWithCustomToken (be : firebase.Backend) (token : string)
| SignOut (be : firebase.Backend)
| Dispose
| HostReclaimed.

Definition step (s : Step) (w : World) : World :=
  match s with
  | RestoreSession be => snd (restoreSession be w)
  | GetCurrentUser => snd (getCurrentUser w)
  | AuthStateChange user => snd (handleAuthStateChange user w)
  | SignInWithCustomToken be token => snd (signInWithCustomToken be token w)
  | SignOut be => snd (signOut be w)
  | Dispose => snd (dispose w)
  | HostReclaimed => set_provider_alive false w
  end.

Definition run (steps : list Step) (w : World) : World :=
  fold_left (fun w s => step s w) steps w.

(** The calls an operation added to the world it started from. *)
Definition new_calls (before after : World) : list Call :=
  skipn (length (calls before)) (calls after).

(** ** Concrete worlds used in the examples *)

Definition alice : firebase.User :=
  {| firebase.uid := "u1";
     firebase.displayName := Some "Alice";
     firebase.email := Some "a@x.com";
     firebase.photoURL := None |}.

Definition alice_info : UserInfo :=
  {| displayName := Some "Alice"; email := Some "a@x.com"; photoURL := None |}.

Definition empty_provider : ClineProvider.t :=
  {| ClineProvider.state :=
       {| ClineProvider.authToken := None; ClineProvider.userInfo := None |};
     ClineProvider.webview := [] |}.

Definition provider_with_token (token : string) : ClineProvider.t :=
  {| ClineProvider.state :=
       {| ClineProvider.authToken := Some token;
          ClineProvider.userInfo := None |};
     ClineProvider.webview := [] |}.

Definition signed_out : firebase.Auth :=
  {| firebase.currentUser := None;
     firebase.persistence := None;
     firebase.observers := [] |}.

Definition signed_in (u : firebase.User) : firebase.Auth :=
  {| firebase.currentUser := Some u;
     firebase.persistence := None;
     firebase.observers := [] |}.

Definition world (p : ClineProvider.t) (alive : bool) (a : firebase.Auth)
  : World :=
  {| provider := p; provider_alive := alive; auth := a;
     disposables := []; calls := [] |}.

(** A provider that accepts every request and signs every token in as
    Alice, and one that rejects every request. *)
Definition accepting : firebase.Backend :=
  {| firebase.initializeApp_error := None;
     firebase.getAuth_error := None;
     firebase.setPersistence_error := None;
     firebase.signInWithCustomToken_answer := fun _ => inr alice;
     firebase.signOut_error := None |}.

Definition rejecting : firebase.Backend :=
  {| firebase.initializeApp_error := None;
     firebase.getAuth_error := None;
     firebase.setPersistence_error := Some "auth/persistence";
     firebase.signInWithCustomToken_answer := fun _ => inl "auth/invalid-token";
     firebase.signOut_error := Some "auth/network" |}.

Definition config0 : firebase.FirebaseOptions := [("projectId", "cline")].

(** ** Vocabulary of the statements *)

(** The profile the source builds from a provider user (the object literal
    of lines 63-67 and 110-114). *)
Definition info_of (u : firebase.User) : UserInfo :=
  {| displayName := firebase.displayName u;
     email := firebase.email u;
     photoURL := firebase.photoURL u |}.

(** The provider client with another current user. *)
Definition with_currentUser (u : option firebase.User) (a : firebase.Auth)
  : firebase.Auth :=
  {| firebase.currentUser := u;
     firebase.persistence := firebase.persistence a;
     firebase.observers := firebase.observers a |}.

(** The world after an operation that left the host at [p], the client at
    [a], and made the calls [cs]. *)
Definition after (w : World) (p : ClineProvider.t) (a : firebase.Auth)
  (cs : list Call) : World :=
  {| provider := p; provider_alive := provider_alive w; auth := a;
     disposables := disposables w; calls := calls w ++ cs |}.

(** The operation changed nothing but the console: host, weak reference,
    provider client and disposables are as before, and every call made is
    a [console.log] or [console.error]. *)
Definition only_logged (w w' : World) : Prop :=
  provider w' = provider w /\
  provider_alive w' = provider_alive w /\
  auth w' = auth w /\
  disposables w' = disposables w /\
  forallb is_console (new_calls w w') = true.

(** The world in which the constructor has registered its listener, when
    [initializeApp] and [getAuth] do not throw: the persistence request
    has been made, its answer has not been reported yet. *)
Definition listening (be : firebase.Backend)
  (firebaseConfig : firebase.FirebaseOptions) (p : ClineProvider.t)
  (w : World) : World :=
  {| provider := p;
     provider_alive := true;
     auth :=
       {| firebase.currentUser := firebase.currentUser (auth w);
          firebase.persistence :=
            match firebase.setPersistence_error be with
            | Some _ => firebase.persistence (auth w)
            | None => Some firebase.browserLocalPersistence
            end;
          firebase.observers :=
            firebase.observers (auth w)
              ++ [S (list_max (firebase.observers (auth w)))] |};
     disposables := [];
     calls :=
       calls w ++
       [Console_log "Initializing FirebaseAuthManager" (DataProvider p);
        Firebase_initializeApp firebaseConfig;
        Firebase_getAuth;
        Console_log "Firebase app initialized" (DataAppConfig firebaseConfig);
        Firebase_setPersistence firebase.browserLocalPersistence;
        Firebase_onAuthStateChanged;
        Console_log "Auth state change listener added" NoData] |}.

(** The call with which the persistence promise chain reports the answer
    to the request. *)
Definition persistence_report (be : firebase.Backend) : Call :=
  match firebase.setPersistence_error be with
  | Some e => Console_error "Error setting persistence:" e
  | None => Console_log "Firebase persistence set to LOCAL" NoData
  end.

(** What is left of the persistence promise chain when the constructor
    returns: once resumed, it reports the answer and settles. *)
Definition persistence_reaction (be : firebase.Backend) : Res unit :=
  Suspended
    (fun w => (record (persistence_report be) w, Settled (Returned tt))).

(** The call that disposing a disposable shows as. *)
Definition dispose_call (d : vscode.Disposable) : Call :=
  match d with
  | vscode.Unsubscribe id => Firebase_unsubscribe id
  | vscode.Resource name _ => Resource_dispose name
  end.

(** The error a disposable throws when disposed, if it does. *)
Definition dispose_error (d : vscode.Disposable)
  : option firebase.FirebaseError :=
  match d with
  | vscode.Unsubscribe _ => None
  | vscode.Resource _ error => error
  end.

(** The disposables an iteration over [ds] reaches, and the error that
    ends it early, if one does. *)
Fixpoint reached (ds : list vscode.Disposable) : list vscode.Disposable :=
  match ds with
  | [] => []
  | d :: ds' =>
      match dispose_error d with
      | Some _ => [d]
      | None => d :: reached ds'
      end
  end.

Fixpoint first_error (ds : list vscode.Disposable)
  : option firebase.FirebaseError :=
  match ds with
  | [] => None
  | d :: ds' =>
      match dispose_error d with
      | Some e => Some e
      | None => first_error ds'
      end
  end.

(** What a step may change: it appends calls, none of which stores a
    token; it never changes the disposables; and as long as there are no
    disposables it leaves the registered observers alone. *)
Definition step_frame (w w' : World) : Prop :=
  exists cs : list Call,
    calls w' = calls w ++ cs /\
    existsb is_token_store cs = false /\
    disposables w' = disposables w /\
    (disposables w = [] ->
     firebase.observers (auth w') = firebase.observers (auth w)).

(** [restoreSession] always takes one of its six paths. *)
Inductive restore_path (be : firebase.Backend) (w : World) : Type :=
| path_reclaimed :
    provider_alive w = false -> restore_path be w
| path_existing (u : firebase.User) :
    provider_alive w = true ->
    firebase.currentUser (auth w) = Some u -> restore_path be w
| path_no_token :
    provider_alive w = true ->
    firebase.currentUser (auth w) = None ->
    truthy (ClineProvider.authToken (ClineProvider.state (provider w))) = None ->
    restore_path be w
| path_token (token : string) :
    provider_alive w = true ->
    firebase.currentUser (auth w) = None ->
    ClineProvider.authToken (ClineProvider.state (provider w)) = Some token ->
    token <> "" ->
    restore_path be w.

(** The stored token of the host in a world. *)
Definition stored_token (w : World) : option string :=
  ClineProvider.authToken (ClineProvider.state (provider w)).

(** Calls on the identity provider client. *)
Definition is_firebase_call (c : Call) : bool :=
  match c with
  | Firebase_initializeApp _ | Firebase_getAuth | Firebase_setPersistence _
  | Firebase_onAuthStateChanged | Firebase_signInWithCustomToken _
  | Firebase_signOut | Firebase_unsubscribe _ => true
  | _ => false
  end.

(** A call that is not a secret read, or reads the key "authToken". *)
Definition secret_key_ok (c : Call) : bool :=
  match c with
  | Provider_getSecret key => String.eqb key "authToken"
  | _ => true
  end.

(** What a run of the manager may do to the host: it appends calls, reads
    no secret but "authToken", leaves the stored token as it was or
    clears it, and once the host is reclaimed it neither calls nor changes
    it, and the reference stays dead. *)
Definition run_frame (w w' : World) : Prop :=
  exists cs : list Call,
    calls w' = calls w ++ cs /\
    forallb secret_key_ok cs = true /\
    (stored_token w' = stored_token w \/ stored_token w' = None) /\
    (provider_alive w = false ->
     provider w' = provider w /\
     provider_alive w' = false /\
     existsb is_provider_call cs = false).

(** ** Symbolic execution of a method

    [run_task] evaluates a method on a world given by its fields, using
    call-by-value so that the nested world updates are computed once each.
    Calls on [be], string tests and list operations are left in place. *)
Ltac open_world w :=
  destruct w as [[[tok info] view] alive [cu pers obs] ds cs];
  simpl in *; subst.

Ltac flatten_calls := rewrite <- ?app_assoc; cbn [app].

Ltac run_task :=
  cbv beta iota zeta delta
    [restoreSession handleAuthStateChange signInWithCustomToken signOut
     getCurrentUser dispose forEach Disposable_dispose
     try_catch bind ret throw console_log console_error emit deref
     auth_currentUser provider_getSecret provider_setAuthToken
     provider_setUserInfo provider_postStateToWebview request
     firebase.signInWithCustomToken firebase.signOut firebase.setPersistence
     firebase.onAuthStateChanged
     ClineProvider.setAuthToken ClineProvider.setUserInfo
     ClineProvider.postStateToWebview
     record set_provider set_provider_alive set_auth set_disposables
     after with_currentUser info_of
     provider provider_alive auth disposables calls
     ClineProvider.state ClineProvider.webview
     ClineProvider.authToken ClineProvider.userInfo
     firebase.currentUser firebase.persistence firebase.observers
     fst snd negb length].

(** The same for the methods with their suspension points, for the
    constructor and for the event loop. *)
Ltac run_async :=
  cbv beta iota zeta delta
    [restoreSession handleAuthStateChange signInWithCustomToken signOut
     getCurrentUser dispose forEach Disposable_dispose
     try_catch bind ret throw console_log console_error emit deref
     auth_currentUser provider_getSecret provider_setAuthToken
     provider_setUserInfo provider_postStateToWebview request
     firebase.signInWithCustomToken firebase.signOut firebase.setPersistence
     firebase.onAuthStateChanged
     ClineProvider.setAuthToken ClineProvider.setUserInfo
     ClineProvider.postStateToWebview
     record set_provider set_provider_alive set_auth set_disposables
     after with_currentUser info_of
     provider provider_alive auth disposables calls
     ClineProvider.state ClineProvider.webview
     ClineProvider.authToken ClineProvider.userInfo
     firebase.currentUser firebase.persistence firebase.observers
     firebase.initializeApp_error firebase.getAuth_error
     firebase.setPersistence_error firebase.signOut_error
     firebase.signInWithCustomToken_answer
     fst snd negb length
     sync await await_async and_then abind or_catch acatch settle
     uninterrupted start settle_each fold_left
     signInWithCustomToken_async signOut_async restoreSession_async
     handleAuthStateChange_async constructor_body constructor
     listening persistence_report persistence_reaction
     resume_nth act run_schedule idle running pending unhandled].

Ltac open_backend be :=
  destruct be as [init_error auth_error pers_error answer out_error];
  simpl in *; subst.

(** * Lemmas *)

(** ** Proof support *)

Lemma new_calls_app (w w' : World) (cs : list Call) :
  calls w' = calls w ++ cs -> new_calls w w' = cs.
Proof.
  intros E. unfold new_calls. rewrite E. clear E.
  generalize (calls w) as l.
  induction l as [|c l IH]; simpl; auto.
Qed.

Lemma truthy_nonempty (s : string) : s <> "" -> truthy (Some s) = Some s.
Proof.
  intros H. destruct s as [|c s]; [congruence | reflexivity].
Qed.

Lemma getSecret_authToken (p : ClineProvider.t) :
  ClineProvider.getSecret "authToken" p =
  ClineProvider.authToken (ClineProvider.state p).
Proof. reflexivity. Qed.

(** ** The scenarios of the specification, run *)

(** Token "abc123" stored, nobody signed in, the provider accepts. *)
Example scenario_stored_token :
  restoreSession accepting
    (world (provider_with_token "abc123") true signed_out) =
  (Returned tt,
   {| provider := provider_with_token "abc123";
      provider_alive := true;
      auth := signed_in alice;
      disposables := [];
      calls :=
        [Console_log "Attempting to restore session" NoData;
         Provider_getSecret "authToken";
         Console_log "Found stored custom token, attempting to restore session"
           NoData;
         Console_log "Signing in with custom token" (DataToken "abc123");
         Firebase_signInWithCustomToken "abc123";
         Console_log "Session restored successfully with custom token"
           NoData] |}).
Proof. vm_compute. reflexivity. Qed.

(** Alice is the provider's current user at startup. *)
Example scenario_existing_user :
  restoreSession accepting
    (world (provider_with_token "abc123") true (signed_in alice)) =
  (Returned tt,
   {| provider :=
        ClineProvider.setUserInfo (Some alice_info)
          (provider_with_token "abc123");
      provider_alive := true;
      auth := signed_in alice;
      disposables := [];
      calls :=
        [Console_log "Attempting to restore session" NoData;
         Console_log "Found existing Firebase session" NoData;
         Provider_setUserInfo (Some alice_info);
         Console_log "Existing session restored" NoData] |}).
Proof. vm_compute. reflexivity. Qed.

(** The sign-in with the stored token throws, and so does the sign-out. *)
Example scenario_failed_restore :
  restoreSession rejecting
    (world (provider_with_token "abc123") true signed_out) =
  (Returned tt,
   {| provider := empty_provider;
      provider_alive := true;
      auth := signed_out;
      disposables := [];
      calls :=
        [Console_log "Attempting to restore session" NoData;
         Provider_getSecret "authToken";
         Console_log "Found stored custom token, attempting to restore session"
           NoData;
         Console_log "Signing in with custom token" (DataToken "abc123");
         Firebase_signInWithCustomToken "abc123";
         Console_error "Failed to restore session with custom token:"
           "auth/invalid-token";
         Provider_setAuthToken None;
         Provider_setUserInfo None;
         Console_log "Signing out" NoData;
         Firebase_signOut;
         Console_error "Error during cleanup after failed session restore:"
           "auth/network"] |}).
Proof. vm_compute. reflexivity. Qed.

(** A disposable, had one been kept, would cancel the subscription. *)
Example dispose_would_unsubscribe :
  let w := {| provider := empty_provider; provider_alive := true;
              auth := {| firebase.currentUser := None;
                         firebase.persistence := None;
                         firebase.observers := [1] |};
              disposables := [vscode.Unsubscribe 1];
              calls := [] |} in
  firebase.observers (auth (snd (dispose w))) = [] /\
  calls (snd (dispose w)) =
    [Firebase_unsubscribe 1;
     Console_log "Disposables disposed" (DataCount 1)].
Proof. split; vm_compute; reflexivity. Qed.

(** ** Session restoration, path by path *)

Section RestoreSessionPaths.

Variable be : firebase.Backend.
Variable w : World.

Lemma restoreSession_reclaimed :
  provider_alive w = false ->
  restoreSession be w =
    (Returned tt,
     after w (provider w) (auth w)
       [Console_log "Attempting to restore session" NoData;
        Console_log "Provider reference lost during session restore"
          NoData]).
Proof.
  intros Halive. open_world w. run_task. flatten_calls. reflexivity.
Qed.

Lemma restoreSession_existing (u : firebase.User) :
  provider_alive w = true ->
  firebase.currentUser (auth w) = Some u ->
  restoreSession be w =
    (Returned tt,
     after w (ClineProvider.setUserInfo (Some (info_of u)) (provider w))
       (auth w)
       [Console_log "Attempting to restore session" NoData;
        Console_log "Found existing Firebase session" NoData;
        Provider_setUserInfo (Some (info_of u));
        Console_log "Existing session restored" NoData]).
Proof.
  intros Halive Huser. open_world w. run_task. flatten_calls.
  reflexivity.
Qed.

Lemma restoreSession_no_token :
  provider_alive w = true ->
  firebase.currentUser (auth w) = None ->
  truthy (ClineProvider.authToken (ClineProvider.state (provider w))) = None ->
  restoreSession be w =
    (Returned tt,
     after w (provider w) (auth w)
       [Console_log "Attempting to restore session" NoData;
        Provider_getSecret "authToken";
        Console_log "No stored custom token found" NoData]).
Proof.
  intros Halive Huser Htok. open_world w. run_task.
  rewrite getSecret_authToken. run_task. rewrite Htok.
  flatten_calls. reflexivity.
Qed.

Section WithToken.

Variable token : string.
Hypothesis Halive : provider_alive w = true.
Hypothesis Huser : firebase.currentUser (auth w) = None.
Hypothesis Htoken :
  ClineProvider.authToken (ClineProvider.state (provider w)) = Some token.
Hypothesis Hnonempty : token <> "".

Lemma restoreSession_signed_in (u : firebase.User) :
  firebase.signInWithCustomToken_answer be token = inr u ->
  restoreSession be w =
    (Returned tt,
     after w (provider w) (with_currentUser (Some u) (auth w))
       [Console_log "Attempting to restore session" NoData;
        Provider_getSecret "authToken";
        Console_log
          "Found stored custom token, attempting to restore session"
          NoData;
        Console_log "Signing in with custom token" (DataToken token);
        Firebase_signInWithCustomToken token;
        Console_log "Session restored successfully with custom token"
          NoData]).
Proof.
  intros Hanswer. open_world w. run_task.
  rewrite getSecret_authToken. run_task.
  rewrite (truthy_nonempty token Hnonempty), Hanswer.
  flatten_calls. reflexivity.
Qed.

Lemma restoreSession_cleanup (e : firebase.FirebaseError) :
  firebase.signInWithCustomToken_answer be token = inl e ->
  firebase.signOut_error be = None ->
  restoreSession be w =
    (Returned tt,
     after w
       (ClineProvider.setUserInfo None
          (ClineProvider.setAuthToken None (provider w)))
       (with_currentUser None (auth w))
       [Console_log "Attempting to restore session" NoData;
        Provider_getSecret "authToken";
        Console_log
          "Found stored custom token, attempting to restore session"
          NoData;
        Console_log "Signing in with custom token" (DataToken token);
        Firebase_signInWithCustomToken token;
        Console_error "Failed to restore session with custom token:" e;
        Provider_setAuthToken None;
        Provider_setUserInfo None;
        Console_log "Signing out" NoData;
        Firebase_signOut]).
Proof.
  intros Hanswer Hout. open_world w. run_task.
  rewrite getSecret_authToken. run_task.
  rewrite (truthy_nonempty token Hnonempty), Hanswer, Hout.
  flatten_calls. reflexivity.
Qed.

Lemma restoreSession_cleanup_failed (e e' : firebase.FirebaseError) :
  firebase.signInWithCustomToken_answer be token = inl e ->
  firebase.signOut_error be = Some e' ->
  restoreSession be w =
    (Returned tt,
     after w
       (ClineProvider.setUserInfo None
          (ClineProvider.setAuthToken None (provider w)))
       (auth w)
       [Console_log "Attempting to restore session" NoData;
        Provider_getSecret "authToken";
        Console_log
          "Found stored custom token, attempting to restore session"
          NoData;
        Console_log "Signing in with custom token" (DataToken token);
        Firebase_signInWithCustomToken token;
        Console_error "Failed to restore session with custom token:" e;
        Provider_setAuthToken None;
        Provider_setUserInfo None;
        Console_log "Signing out" NoData;
        Firebase_signOut;
        Console_error
          "Error during cleanup after failed session restore:" e']).
Proof.
  intros Hanswer Hout. open_world w. run_task.
  rewrite getSecret_authToken. run_task.
  rewrite (truthy_nonempty token Hnonempty), Hanswer, Hout.
  flatten_calls. reflexivity.
Qed.

End WithToken.

End RestoreSessionPaths.

(** ** The auth-state callback, path by path *)

Section HandleAuthStateChangePaths.

Variable w : World.

Lemma handleAuthStateChange_reclaimed (user : option firebase.User) :
  provider_alive w = false ->
  handleAuthStateChange user w =
    (Returned tt,
     after w (provider w) (auth w)
       [Console_log "Auth state changed" (DataUser user);
        Console_log "Provider reference lost" NoData]).
Proof.
  intros Halive. open_world w. run_task. flatten_calls. reflexivity.
Qed.

Lemma handleAuthStateChange_user (u : firebase.User) :
  provider_alive w = true ->
  handleAuthStateChange (Some u) w =
    (Returned tt,
     after w
       (ClineProvider.postStateToWebview
          (ClineProvider.setUserInfo (Some (info_of u)) (provider w)))
       (auth w)
       [Console_log "Auth state changed" (DataUser (Some u));
        Console_log "User signed in" (DataUserId (firebase.uid u));
        Provider_setUserInfo (Some (info_of u));
        Console_log "User info set in provider" (DataUser (Some u));
        Provider_postStateToWebview;
        Console_log "Webview state updated" NoData]).
Proof.
  intros Halive. open_world w. run_task. flatten_calls. reflexivity.
Qed.

Lemma handleAuthStateChange_no_user :
  provider_alive w = true ->
  handleAuthStateChange None w =
    (Returned tt,
     after w
       (ClineProvider.postStateToWebview
          (ClineProvider.setUserInfo None
             (ClineProvider.setAuthToken None (provider w))))
       (auth w)
       [Console_log "Auth state changed" (DataUser None);
        Console_log "User signed out" NoData;
        Provider_setAuthToken None;
        Provider_setUserInfo None;
        Provider_postStateToWebview;
        Console_log "Webview state updated" NoData]).
Proof.
  intros Halive. open_world w. run_task. flatten_calls. reflexivity.
Qed.

End HandleAuthStateChangePaths.

(** ** The explicit operations and disposal *)

Lemma signInWithCustomToken_run (be : firebase.Backend) (token : string)
  (w : World) :
  signInWithCustomToken be token w =
    match firebase.signInWithCustomToken_answer be token with
    | inl e =>
        (Thrown e,
         after w (provider w) (auth w)
           [Console_log "Signing in with custom token" (DataToken token);
            Firebase_signInWithCustomToken token])
    | inr u =>
        (Returned tt,
         after w (provider w) (with_currentUser (Some u) (auth w))
           [Console_log "Signing in with custom token" (DataToken token);
            Firebase_signInWithCustomToken token])
    end.
Proof.
  open_world w. run_task.
  destruct (firebase.signInWithCustomToken_answer be token);
    flatten_calls; reflexivity.
Qed.

Lemma signOut_run (be : firebase.Backend) (w : World) :
  signOut be w =
    match firebase.signOut_error be with
    | Some e =>
        (Thrown e,
         after w (provider w) (auth w)
           [Console_log "Signing out" NoData; Firebase_signOut])
    | None =>
        (Returned tt,
         after w (provider w) (with_currentUser None (auth w))
           [Console_log "Signing out" NoData; Firebase_signOut])
    end.
Proof.
  open_world w. run_task.
  destruct (firebase.signOut_error be); flatten_calls; reflexivity.
Qed.

Lemma dispose_nothing (w : World) :
  disposables w = [] ->
  dispose w =
    (Returned tt,
     after w (provider w) (auth w)
       [Console_log "Disposables disposed" (DataCount 0)]).
Proof.
  intros Hds. open_world w. run_task. flatten_calls. reflexivity.
Qed.

(** ** What every method leaves alone *)

Lemma after_calls w p a cs : calls (after w p a cs) = calls w ++ cs.
Proof. reflexivity. Qed.

Lemma truthy_some (v : option string) (s : string) :
  truthy v = Some s -> v = Some s /\ s <> "".
Proof.
  unfold truthy. destruct v as [t|]; [|discriminate].
  destruct t as [|c t]; simpl; [discriminate|].
  intros E. injection E as <-. split; [reflexivity | discriminate].
Qed.

Lemma restore_paths (be : firebase.Backend) (w : World) : restore_path be w.
Proof.
  destruct (provider_alive w) eqn:Halive; [|now apply path_reclaimed].
  destruct (firebase.currentUser (auth w)) as [u|] eqn:Huser;
    [now apply (path_existing be w u)|].
  destruct (truthy (ClineProvider.authToken (ClineProvider.state (provider w))))
    as [token|] eqn:Htok; [|now apply path_no_token].
  apply truthy_some in Htok. destruct Htok as [Htok Hne].
  now apply (path_token be w token).
Qed.

(** The shape of every [restoreSession] run: it returns normally, and the
    world afterwards is the one before with a new host state, a client
    that kept its observers, and more calls, none of which stores a
    token. *)
Lemma restoreSession_shape (be : firebase.Backend) (w : World) :
  exists p a cs,
    restoreSession be w = (Returned tt, after w p a cs) /\
    firebase.observers a = firebase.observers (auth w) /\
    existsb is_token_store cs = false.
Proof.
  destruct (restore_paths be w) as [H|u H1 H2|H1 H2 H3|token H1 H2 H3 H4].
  - rewrite restoreSession_reclaimed by assumption.
    do 3 eexists. split; [reflexivity|]. split; reflexivity.
  - rewrite (restoreSession_existing be w u) by assumption.
    do 3 eexists. split; [reflexivity|]. split; reflexivity.
  - rewrite restoreSession_no_token by assumption.
    do 3 eexists. split; [reflexivity|]. split; reflexivity.
  - destruct (firebase.signInWithCustomToken_answer be token) as [e|u] eqn:Ha.
    + destruct (firebase.signOut_error be) as [e'|] eqn:Ho.
      * rewrite (restoreSession_cleanup_failed be w token H1 H2 H3 H4 e e')
          by assumption.
        do 3 eexists. split; [reflexivity|]. split; reflexivity.
      * rewrite (restoreSession_cleanup be w token H1 H2 H3 H4 e)
          by assumption.
        do 3 eexists. split; [reflexivity|]. split; reflexivity.
    + rewrite (restoreSession_signed_in be w token H1 H2 H3 H4 u)
        by assumption.
      do 3 eexists. split; [reflexivity|]. split; reflexivity.
Qed.


(** ** The methods with and without interruption

    Each method as a [Task] is the method with its suspension points,
    resumed at once every time it is suspended. *)

Lemma handleAuthStateChange_uninterrupted (user : option firebase.User)
  (w : World) :
  uninterrupted (handleAuthStateChange_async user) w =
  handleAuthStateChange user w.
Proof.
  destruct w as [[[tok info] view] alive [cu pers obs] ds cs].
  destruct alive; destruct user as [u|]; run_async; reflexivity.
Qed.

Lemma signInWithCustomToken_uninterrupted (be : firebase.Backend)
  (token : string) (w : World) :
  uninterrupted (signInWithCustomToken_async be token) w =
  signInWithCustomToken be token w.
Proof.
  destruct w as [[[tok info] view] alive [cu pers obs] ds cs].
  open_backend be. run_async.
  destruct (answer token); reflexivity.
Qed.

Lemma signOut_uninterrupted (be : firebase.Backend) (w : World) :
  uninterrupted (signOut_async be) w = signOut be w.
Proof.
  destruct w as [[[tok info] view] alive [cu pers obs] ds cs].
  open_backend be. run_async.
  destruct out_error; reflexivity.
Qed.

Lemma restoreSession_uninterrupted (be : firebase.Backend) (w : World) :
  uninterrupted (restoreSession_async be) w = restoreSession be w.
Proof.
  destruct w as [[[tok info] view] alive [cu pers obs] ds cs].
  open_backend be.
  destruct alive; [|run_async; reflexivity].
  destruct cu as [u|]; [run_async; reflexivity|].
  run_async. rewrite getSecret_authToken. run_async.
  destruct (truthy tok) as [token|]; [|run_async; reflexivity].
  run_async.
  destruct (answer token) as [e|u]; [|run_async; reflexivity].
  run_async.
  destruct out_error as [e'|]; run_async; reflexivity.
Qed.

(** ** Construction *)

Ltac open_construction w p be :=
  destruct w as [p0 alive [cu pers obs] ds cs];
  destruct p as [[tok info] view];
  open_backend be.

Lemma constructor_body_run (be : firebase.Backend)
  (firebaseConfig : firebase.FirebaseOptions) (p : ClineProvider.t)
  (w : World) :
  firebase.initializeApp_error be = None ->
  firebase.getAuth_error be = None ->
  constructor_body be firebaseConfig p w =
    (Returned
       [persistence_reaction be;
        snd (restoreSession_async be (listening be firebaseConfig p w))],
     fst (restoreSession_async be (listening be firebaseConfig p w))).
Proof.
  intros Hinit Hauth. open_construction w p be.
  destruct pers_error as [e|];
    cbv beta iota zeta delta
      [constructor_body start bind ret throw console_log console_error emit
       request firebase.setPersistence firebase.onAuthStateChanged
       sync await and_then abind or_catch acatch
       record set_provider set_provider_alive set_auth set_disposables
       provider provider_alive auth disposables calls
       firebase.currentUser firebase.persistence firebase.observers
       firebase.initializeApp_error firebase.getAuth_error
       firebase.setPersistence_error
       listening persistence_report persistence_reaction fst snd];
    flatten_calls;
    match goal with
    | |- context [restoreSession_async ?b ?l] =>
        destruct (restoreSession_async b l)
    end; reflexivity.
Qed.

Section ConstructorPaths.

Variable be : firebase.Backend.
Variable firebaseConfig : firebase.FirebaseOptions.
Variable p : ClineProvider.t.
Variable w : World.
Hypothesis Hinit : firebase.initializeApp_error be = None.
Hypothesis Hauth : firebase.getAuth_error be = None.

Lemma constructor_existing (u : firebase.User) :
  firebase.currentUser (auth w) = Some u ->
  constructor be firebaseConfig p w =
    (Returned tt,
     after (listening be firebaseConfig p w)
       (ClineProvider.setUserInfo (Some (info_of u)) p)
       (auth (listening be firebaseConfig p w))
       [Console_log "Attempting to restore session" NoData;
        Console_log "Found existing Firebase session" NoData;
        Provider_setUserInfo (Some (info_of u));
        persistence_report be;
        Console_log "Existing session restored" NoData]).
Proof.
  intros Huser. open_construction w p be.
  destruct pers_error as [e|]; run_async; flatten_calls; reflexivity.
Qed.

Lemma constructor_no_token :
  firebase.currentUser (auth w) = None ->
  truthy (ClineProvider.authToken (ClineProvider.state p)) = None ->
  constructor be firebaseConfig p w =
    (Returned tt,
     after (listening be firebaseConfig p w) p
       (auth (listening be firebaseConfig p w))
       [Console_log "Attempting to restore session" NoData;
        Provider_getSecret "authToken";
        persistence_report be;
        Console_log "No stored custom token found" NoData]).
Proof.
  intros Huser Htok. open_construction w p be.
  destruct pers_error as [e|]; run_async;
    rewrite getSecret_authToken; run_async; rewrite Htok;
    flatten_calls; reflexivity.
Qed.

Section WithToken.

Variable token : string.
Hypothesis Huser : firebase.currentUser (auth w) = None.
Hypothesis Htoken : ClineProvider.authToken (ClineProvider.state p) = Some token.
Hypothesis Hnonempty : token <> "".

Lemma constructor_signed_in (u : firebase.User) :
  firebase.signInWithCustomToken_answer be token = inr u ->
  constructor be firebaseConfig p w =
    (Returned tt,
     after (listening be firebaseConfig p w) p
       (with_currentUser (Some u) (auth (listening be firebaseConfig p w)))
       [Console_log "Attempting to restore session" NoData;
        Provider_getSecret "authToken";
        persistence_report be;
        Console_log "Found stored custom token, attempting to restore session"
          NoData;
        Console_log "Signing in with custom token" (DataToken token);
        Firebase_signInWithCustomToken token;
        Console_log "Session restored successfully with custom token"
          NoData]).
Proof.
  intros Hanswer. open_construction w p be.
  destruct pers_error as [e|]; run_async;
    rewrite getSecret_authToken; run_async;
    rewrite (truthy_nonempty token Hnonempty); run_async;
    rewrite Hanswer; run_async; flatten_calls; reflexivity.
Qed.

Lemma constructor_cleanup (e : firebase.FirebaseError) :
  firebase.signInWithCustomToken_answer be token = inl e ->
  firebase.signOut_error be = None ->
  constructor be firebaseConfig p w =
    (Returned tt,
     after (listening be firebaseConfig p w)
       (ClineProvider.setUserInfo None (ClineProvider.setAuthToken None p))
       (with_currentUser None (auth (listening be firebaseConfig p w)))
       [Console_log "Attempting to restore session" NoData;
        Provider_getSecret "authToken";
        persistence_report be;
        Console_log "Found stored custom token, attempting to restore session"
          NoData;
        Console_log "Signing in with custom token" (DataToken token);
        Firebase_signInWithCustomToken token;
        Console_error "Failed to restore session with custom token:" e;
        Provider_setAuthToken None;
        Provider_setUserInfo None;
        Console_log "Signing out" NoData;
        Firebase_signOut]).
Proof.
  intros Hanswer Hout. open_construction w p be.
  destruct pers_error as [e0|]; run_async;
    rewrite getSecret_authToken; run_async;
    rewrite (truthy_nonempty token Hnonempty); run_async;
    rewrite Hanswer; run_async; flatten_calls; reflexivity.
Qed.

Lemma constructor_cleanup_failed (e e' : firebase.FirebaseError) :
  firebase.signInWithCustomToken_answer be token = inl e ->
  firebase.signOut_error be = Some e' ->
  constructor be firebaseConfig p w =
    (Returned tt,
     after (listening be firebaseConfig p w)
       (ClineProvider.setUserInfo None (ClineProvider.setAuthToken None p))
       (auth (listening be firebaseConfig p w))
       [Console_log "Attempting to restore session" NoData;
        Provider_getSecret "authToken";
        persistence_report be;
        Console_log "Found stored custom token, attempting to restore session"
          NoData;
        Console_log "Signing in with custom token" (DataToken token);
        Firebase_signInWithCustomToken token;
        Console_error "Failed to restore session with custom token:" e;
        Provider_setAuthToken None;
        Provider_setUserInfo None;
        Console_log "Signing out" NoData;
        Firebase_signOut;
        Console_error "Error during cleanup after failed session restore:"
          e']).
Proof.
  intros Hanswer Hout. open_construction w p be.
  destruct pers_error as [e0|]; run_async;
    rewrite getSecret_authToken; run_async;
    rewrite (truthy_nonempty token Hnonempty); run_async;
    rewrite Hanswer; run_async; flatten_calls; reflexivity.
Qed.

End WithToken.

End ConstructorPaths.

Lemma constructor_settled (be : firebase.Backend)
  (firebaseConfig : firebase.FirebaseOptions) (p : ClineProvider.t)
  (w : World) :
  firebase.initializeApp_error be = None ->
  firebase.getAuth_error be = None ->
  fst (constructor be firebaseConfig p w) = Returned tt.
Proof.
  intros Hinit Hauth. unfold constructor.
  rewrite (constructor_body_run be firebaseConfig p w Hinit Hauth).
  reflexivity.
Qed.

Lemma constructor_initializeApp_throws (be : firebase.Backend)
  (firebaseConfig : firebase.FirebaseOptions) (p : ClineProvider.t)
  (w : World) (e : firebase.FirebaseError) :
  firebase.initializeApp_error be = Some e ->
  constructor be firebaseConfig p w =
    (Thrown e,
     {| provider := p; provider_alive := true; auth := auth w;
        disposables := [];
        calls := calls w ++
          [Console_log "Initializing FirebaseAuthManager" (DataProvider p);
           Firebase_initializeApp firebaseConfig] |}).
Proof.
  intros Hinit. open_construction w p be.
  run_async. flatten_calls. reflexivity.
Qed.

Lemma constructor_getAuth_throws (be : firebase.Backend)
  (firebaseConfig : firebase.FirebaseOptions) (p : ClineProvider.t)
  (w : World) (e : firebase.FirebaseError) :
  firebase.initializeApp_error be = None ->
  firebase.getAuth_error be = Some e ->
  constructor be firebaseConfig p w =
    (Thrown e,
     {| provider := p; provider_alive := true; auth := auth w;
        disposables := [];
        calls := calls w ++
          [Console_log "Initializing FirebaseAuthManager" (DataProvider p);
           Firebase_initializeApp firebaseConfig;
           Firebase_getAuth] |}).
Proof.
  intros Hinit Hauth. open_construction w p be.
  run_async. flatten_calls. reflexivity.
Qed.

Lemma constructor_returned (be : firebase.Backend)
  (firebaseConfig : firebase.FirebaseOptions) (p : ClineProvider.t)
  (w : World) :
  fst (constructor be firebaseConfig p w) = Returned tt ->
  firebase.initializeApp_error be = None /\
  firebase.getAuth_error be = None.
Proof.
  intros Hret.
  destruct (firebase.initializeApp_error be) as [e|] eqn:Hinit.
  - rewrite (constructor_initializeApp_throws be firebaseConfig p w e Hinit)
      in Hret.
    discriminate.
  - split; [reflexivity|].
    destruct (firebase.getAuth_error be) as [e|] eqn:Hauth; [|reflexivity].
    rewrite (constructor_getAuth_throws be firebaseConfig p w e Hinit Hauth)
      in Hret.
    discriminate.
Qed.

(** The constructor always ends on one of five paths. *)
Ltac constructor_cases be firebaseConfig p w Hinit Hauth :=
  let u := fresh "u" in
  let token := fresh "token" in
  let e := fresh "e" in
  let e' := fresh "e'" in
  let Huser := fresh "Huser" in
  let Htok := fresh "Htoken" in
  let Hne := fresh "Hnonempty" in
  let Ha := fresh "Hanswer" in
  let Ho := fresh "Hout" in
  destruct (firebase.currentUser (auth w)) as [u|] eqn:Huser;
  [ rewrite (constructor_existing be firebaseConfig p w Hinit Hauth u Huser)
  | destruct (truthy (ClineProvider.authToken (ClineProvider.state p)))
      as [token|] eqn:Htok;
    [ apply truthy_some in Htok; destruct Htok as [Htok Hne];
      destruct (firebase.signInWithCustomToken_answer be token)
        as [e|u] eqn:Ha;
      [ destruct (firebase.signOut_error be) as [e'|] eqn:Ho;
        [ rewrite (constructor_cleanup_failed be firebaseConfig p w
                     Hinit Hauth token Huser Htok Hne e e' Ha Ho)
        | rewrite (constructor_cleanup be firebaseConfig p w
                     Hinit Hauth token Huser Htok Hne e Ha Ho) ]
      | rewrite (constructor_signed_in be firebaseConfig p w
                   Hinit Hauth token Huser Htok Hne u Ha) ]
    | rewrite (constructor_no_token be firebaseConfig p w
                 Hinit Hauth Huser Htok) ] ].

Lemma persistence_report_no_store (be : firebase.Backend) :
  is_token_store (persistence_report be) = false.
Proof.
  unfold persistence_report.
  destruct (firebase.setPersistence_error be); reflexivity.
Qed.

(** The shape of every run of the constructor that returns. *)
Lemma constructor_shape (be : firebase.Backend)
  (firebaseConfig : firebase.FirebaseOptions) (p : ClineProvider.t)
  (w : World) :
  firebase.initializeApp_error be = None ->
  firebase.getAuth_error be = None ->
  exists p' a cs,
    constructor be firebaseConfig p w =
      (Returned tt, after (listening be firebaseConfig p w) p' a cs) /\
    firebase.observers a =
      firebase.observers (auth (listening be firebaseConfig p w)) /\
    firebase.persistence a =
      firebase.persistence (auth (listening be firebaseConfig p w)) /\
    existsb is_token_store cs = false.
Proof.
  intros Hinit Hauth.
  constructor_cases be firebaseConfig p w Hinit Hauth;
    do 3 eexists; (split; [reflexivity|]);
    (split; [reflexivity|]); (split; [reflexivity|]);
    simpl; rewrite persistence_report_no_store; reflexivity.
Qed.

Lemma new_calls_listening (be : firebase.Backend)
  (firebaseConfig : firebase.FirebaseOptions) (p p' : ClineProvider.t)
  (w : World) (a : firebase.Auth) (cs : list Call) :
  new_calls w (after (listening be firebaseConfig p w) p' a cs) =
    [Console_log "Initializing FirebaseAuthManager" (DataProvider p);
     Firebase_initializeApp firebaseConfig;
     Firebase_getAuth;
     Console_log "Firebase app initialized" (DataAppConfig firebaseConfig);
     Firebase_setPersistence firebase.browserLocalPersistence;
     Firebase_onAuthStateChanged;
     Console_log "Auth state change listener added" NoData] ++ cs.
Proof.
  apply new_calls_app. unfold after, listening. cbn [calls].
  rewrite <- app_assoc. reflexivity.
Qed.

(** ** The event loop *)

Lemma handleAuthStateChange_async_harmless (user : option firebase.User)
  (w : World) :
  harmless (snd (handleAuthStateChange_async user w)).
Proof.
  destruct w as [[[tok info] view] alive [cu pers obs] ds cs].
  destruct alive; destruct user as [u|]; run_async;
    repeat (let w' := fresh "w" in intros w'); exact I.
Qed.

Lemma restoreSession_async_harmless (be : firebase.Backend) (w : World) :
  harmless (snd (restoreSession_async be w)).
Proof.
  destruct w as [[[tok info] view] alive [cu pers obs] ds cs].
  open_backend be.
  destruct alive; [|run_async; exact I].
  destruct cu as [u|]; [run_async; intros w1; exact I|].
  run_async. intros w1. rewrite getSecret_authToken. run_async.
  destruct (truthy tok) as [token|]; [|run_async; exact I].
  run_async.
  destruct (answer token) as [e|u]; [|run_async; intros w2; exact I].
  run_async. intros w2 w3 w4.
  destruct out_error as [e'|]; run_async; intros w5; exact I.
Qed.

Lemma persistence_reaction_harmless (be : firebase.Backend) :
  harmless (persistence_reaction be).
Proof.
  intros w. exact I.
Qed.

Lemma resume_nth_harmless (ts : list (Res unit)) :
  forall (i : nat) (w : World),
    Forall harmless ts ->
    Forall harmless (snd (fst (resume_nth i ts w))) /\
    snd (resume_nth i ts w) = [].
Proof.
  induction ts as [|t ts IH]; intros i w Hts; simpl.
  - split; [constructor | reflexivity].
  - inversion Hts as [|t' ts' Ht Hts']; subst.
    destruct i as [|i].
    + destruct t as [o|resume].
      * split; [exact Hts' | reflexivity].
      * simpl in Ht. specialize (Ht w).
        destruct (resume w) as [w' r]. simpl in Ht.
        destruct r as [[a|e]|resume'].
        -- split; [exact Hts' | reflexivity].
        -- destruct Ht.
        -- split; [constructor; assumption | reflexivity].
    + destruct (IH i w Hts') as [Hf He].
      destruct (resume_nth i ts w) as [[w' ts''] es]. simpl in *.
      split; [constructor; assumption | exact He].
Qed.

Lemma act_harmless (a : Action) (s : System) :
  Forall harmless (pending s) -> unhandled s = [] ->
  Forall harmless (pending (act a s)) /\ unhandled (act a s) = [].
Proof.
  intros Hts Hun. destruct a as [user|i]; simpl.
  - pose proof (handleAuthStateChange_async_harmless user (running s)) as Hh.
    destruct (handleAuthStateChange_async user (running s)) as [w' r].
    simpl in Hh. destruct r as [[a|e]|resume]; simpl.
    + split; assumption.
    + destruct Hh.
    + split; [|assumption].
      apply Forall_app. split; [assumption|]. constructor; [exact Hh|constructor].
  - destruct (resume_nth_harmless (pending s) i (running s) Hts) as [Hf He].
    destruct (resume_nth i (pending s) (running s)) as [[w' ts] es].
    simpl in *. subst es. rewrite app_nil_r. split; assumption.
Qed.

Lemma run_schedule_harmless (schedule : list Action) :
  forall s : System,
    Forall harmless (pending s) -> unhandled s = [] ->
    Forall harmless (pending (run_schedule schedule s)) /\
    unhandled (run_schedule schedule s) = [].
Proof.
  induction schedule as [|a schedule IH]; intros s Hts Hun; simpl.
  - split; assumption.
  - destruct (act_harmless a s Hts Hun) as [Hts' Hun'].
    apply IH; assumption.
Qed.



(** * The claims *)

(** ** Session restoration *)

(** C2.  If the host reference is alive and the provider already reports a
    current user when [restoreSession] runs, then the call returns without
    error; the host state holds exactly that user's display name, email and
    photo URL, and its stored token is as before; the calls made are two
    log lines, one [setUserInfo] with that profile and a last log line, so
    there is no [getSecret] call and no sign-in, and the provider client is
    left as it was. *)
Theorem restoreSession_existing_session :
  forall (be : firebase.Backend) (w : World) (u : firebase.User),
    provider_alive w = true ->
    firebase.currentUser (auth w) = Some u ->
    let info := {| displayName := firebase.displayName u;
                   email := firebase.email u;
                   photoURL := firebase.photoURL u |} in
    let w' := snd (restoreSession be w) in
    fst (restoreSession be w) = Returned tt /\
    ClineProvider.userInfo (ClineProvider.state (provider w')) = Some info /\
    ClineProvider.authToken (ClineProvider.state (provider w')) =
      ClineProvider.authToken (ClineProvider.state (provider w)) /\
    new_calls w w' =
      [Console_log "Attempting to restore session" NoData;
       Console_log "Found existing Firebase session" NoData;
       Provider_setUserInfo (Some info);
       Console_log "Existing session restored" NoData] /\
    existsb is_getSecret (new_calls w w') = false /\
    existsb is_signIn (new_calls w w') = false /\
    auth w' = auth w.
Proof.
  intros be w u Halive Huser info w'. subst w'.
  rewrite (restoreSession_existing be w u Halive Huser). simpl.
  rewrite (new_calls_app w _ _ (after_calls w _ _ _)).
  repeat split; reflexivity.
Qed.

(** The scenario of the specification: Alice is the current user at
    startup. *)
Lemma restoreSession_existing_session_witness :
  let w := world (provider_with_token "abc123") true (signed_in alice) in
  provider_alive w = true /\
  firebase.currentUser (auth w) = Some alice /\
  ClineProvider.userInfo
    (ClineProvider.state (provider (snd (restoreSession accepting w)))) =
    Some alice_info /\
  existsb is_getSecret (new_calls w (snd (restoreSession accepting w))) = false.
Proof.
  intros w.
  pose proof (restoreSession_existing_session accepting w alice
                eq_refl eq_refl) as H.
  split; [reflexivity|]. split; [reflexivity|].
  split; [exact (proj1 (proj2 H)) | exact (proj1 (proj2 (proj2 (proj2 (proj2 H)))))].
Defined.

(** C3, as stated, fails for the empty string: [getSecret] returns a
    present token (the empty text), no user is signed in, and
    [restoreSession] makes no sign-in call at all, because the source
    tests the token for truthiness. *)
Lemma restoreSession_empty_token_counterexample :
  let w := world (provider_with_token "") true signed_out in
  provider_alive w = true /\
  firebase.currentUser (auth w) = None /\
  ClineProvider.getSecret "authToken" (provider w) = Some "" /\
  signIn_tokens (new_calls w (snd (restoreSession accepting w))) <> [""] /\
  new_calls w (snd (restoreSession accepting w)) =
    [Console_log "Attempting to restore session" NoData;
     Provider_getSecret "authToken";
     Console_log "No stored custom token found" NoData].
Proof.
  intros w. repeat split; try reflexivity. discriminate.
Qed.

(** C3, amended.  If the host reference is alive, the provider reports no
    current user and [getSecret("authToken")] returns a non-empty token,
    then [restoreSession] calls the provider's sign-in exactly once, with
    exactly that token; and if that sign-in succeeds, [restoreSession]
    returns without error, makes no [setAuthToken] and no [setUserInfo]
    call, and leaves the host state as it was. *)
Theorem restoreSession_signs_in_once :
  forall (be : firebase.Backend) (w : World) (token : string),
    provider_alive w = true ->
    firebase.currentUser (auth w) = None ->
    ClineProvider.getSecret "authToken" (provider w) = Some token ->
    token <> "" ->
    let w' := snd (restoreSession be w) in
    signIn_tokens (new_calls w w') = [token] /\
    (forall u : firebase.User,
        firebase.signInWithCustomToken_answer be token = inr u ->
        fst (restoreSession be w) = Returned tt /\
        existsb is_provider_write (new_calls w w') = false /\
        provider w' = provider w).
Proof.
  intros be w token Halive Huser Htok Hne w'. subst w'.
  rewrite getSecret_authToken in Htok.
  destruct (firebase.signInWithCustomToken_answer be token) as [e|u] eqn:Ha.
  - split; [|intros u Hu; discriminate].
    destruct (firebase.signOut_error be) as [e'|] eqn:Ho.
    + rewrite (restoreSession_cleanup_failed be w token
                 Halive Huser Htok Hne e e' Ha Ho). simpl.
      rewrite (new_calls_app w _ _ (after_calls w _ _ _)). reflexivity.
    + rewrite (restoreSession_cleanup be w token
                 Halive Huser Htok Hne e Ha Ho). simpl.
      rewrite (new_calls_app w _ _ (after_calls w _ _ _)). reflexivity.
  - rewrite (restoreSession_signed_in be w token
               Halive Huser Htok Hne u Ha). simpl.
    rewrite (new_calls_app w _ _ (after_calls w _ _ _)).
    split; [reflexivity|]. intros u' _. repeat split; reflexivity.
Qed.

(** The scenario of the specification: the token "abc123" is stored and
    nobody is signed in. *)
Lemma restoreSession_signs_in_once_witness :
  let w := world (provider_with_token "abc123") true signed_out in
  provider_alive w = true /\
  firebase.currentUser (auth w) = None /\
  ClineProvider.getSecret "authToken" (provider w) = Some "abc123" /\
  "abc123" <> "" /\
  signIn_tokens (new_calls w (snd (restoreSession accepting w))) = ["abc123"].
Proof.
  intros w.
  assert (Hne : "abc123" <> "") by discriminate.
  pose proof (restoreSession_signs_in_once accepting w "abc123"
                eq_refl eq_refl eq_refl Hne) as H.
  split; [reflexivity|]. split; [reflexivity|]. split; [reflexivity|].
  split; [exact Hne | exact (proj1 H)].
Defined.

(** C4.  If the host reference is alive, nobody is signed in, a non-empty
    token is stored and the sign-in that [restoreSession] attempts with it
    fails, then afterwards the stored token and the profile are both
    absent and one provider sign-out was attempted, after the two clearing
    calls; if the sign-out fails too, the only further call is the
    [console.error] that logs it; and [restoreSession] returns without an
    error in both cases. *)
Theorem restoreSession_failed_signIn_cleans_up :
  forall (be : firebase.Backend) (w : World) (token : string)
         (e : firebase.FirebaseError),
    provider_alive w = true ->
    firebase.currentUser (auth w) = None ->
    ClineProvider.getSecret "authToken" (provider w) = Some token ->
    token <> "" ->
    firebase.signInWithCustomToken_answer be token = inl e ->
    let w' := snd (restoreSession be w) in
    fst (restoreSession be w) = Returned tt /\
    ClineProvider.authToken (ClineProvider.state (provider w')) = None /\
    ClineProvider.userInfo (ClineProvider.state (provider w')) = None /\
    new_calls w w' =
      [Console_log "Attempting to restore session" NoData;
       Provider_getSecret "authToken";
       Console_log "Found stored custom token, attempting to restore session"
         NoData;
       Console_log "Signing in with custom token" (DataToken token);
       Firebase_signInWithCustomToken token;
       Console_error "Failed to restore session with custom token:" e;
       Provider_setAuthToken None;
       Provider_setUserInfo None;
       Console_log "Signing out" NoData;
       Firebase_signOut]
      ++ match firebase.signOut_error be with
         | Some e' =>
             [Console_error
                "Error during cleanup after failed session restore:" e']
         | None => []
         end /\
    length (filter is_signOut (new_calls w w')) = 1.
Proof.
  intros be w token e Halive Huser Htok Hne Ha w'. subst w'.
  rewrite getSecret_authToken in Htok.
  destruct (firebase.signOut_error be) as [e'|] eqn:Ho.
  - rewrite (restoreSession_cleanup_failed be w token
               Halive Huser Htok Hne e e' Ha Ho). simpl.
    rewrite (new_calls_app w _ _ (after_calls w _ _ _)).
    repeat split; reflexivity.
  - rewrite (restoreSession_cleanup be w token
               Halive Huser Htok Hne e Ha Ho). simpl.
    rewrite (new_calls_app w _ _ (after_calls w _ _ _)).
    repeat split; reflexivity.
Qed.

(** The failing restoration of the specification's last scenario, with a
    provider whose sign-out fails as well. *)
Lemma restoreSession_failed_signIn_cleans_up_witness :
  let w := world (provider_with_token "abc123") true signed_out in
  provider_alive w = true /\
  firebase.currentUser (auth w) = None /\
  ClineProvider.getSecret "authToken" (provider w) = Some "abc123" /\
  "abc123" <> "" /\
  firebase.signInWithCustomToken_answer rejecting "abc123" =
    inl "auth/invalid-token" /\
  fst (restoreSession rejecting w) = Returned tt /\
  ClineProvider.authToken
    (ClineProvider.state (provider (snd (restoreSession rejecting w)))) = None.
Proof.
  intros w.
  assert (Hne : "abc123" <> "") by discriminate.
  pose proof (restoreSession_failed_signIn_cleans_up rejecting w "abc123"
                "auth/invalid-token" eq_refl eq_refl eq_refl Hne eq_refl) as H.
  split; [reflexivity|]. split; [reflexivity|]. split; [reflexivity|].
  split; [exact Hne|]. split; [reflexivity|].
  split; [exact (proj1 H) | exact (proj1 (proj2 H))].
Defined.

(** ** The auth-state callback *)

(** C5.  Whenever the callback runs with the host reference alive it
    returns without error and its calls on the host are, in order: for a
    present user, [setUserInfo] with that user's profile and then
    [postStateToWebview]; for an absent user, [setAuthToken(undefined)],
    [setUserInfo(undefined)] and then [postStateToWebview].  Afterwards the
    host state holds the user's profile (and the token it had), or neither
    token nor profile, and that state is the one last pushed to the
    webview. *)
Theorem handleAuthStateChange_updates_host :
  forall (w : World) (user : option firebase.User),
    provider_alive w = true ->
    let w' := snd (handleAuthStateChange user w) in
    let st' := ClineProvider.state (provider w') in
    fst (handleAuthStateChange user w) = Returned tt /\
    filter is_provider_call (new_calls w w') =
      match user with
      | Some u =>
          [Provider_setUserInfo
             (Some {| displayName := firebase.displayName u;
                      email := firebase.email u;
                      photoURL := firebase.photoURL u |});
           Provider_postStateToWebview]
      | None =>
          [Provider_setAuthToken None;
           Provider_setUserInfo None;
           Provider_postStateToWebview]
      end /\
    st' =
      match user with
      | Some u =>
          {| ClineProvider.authToken :=
               ClineProvider.authToken (ClineProvider.state (provider w));
             ClineProvider.userInfo :=
               Some {| displayName := firebase.displayName u;
                       email := firebase.email u;
                       photoURL := firebase.photoURL u |} |}
      | None =>
          {| ClineProvider.authToken := None;
             ClineProvider.userInfo := None |}
      end /\
    ClineProvider.webview (provider w') =
      ClineProvider.webview (provider w) ++ [st'].
Proof.
  intros w user Halive w' st'. subst st' w'.
  destruct user as [u|].
  - rewrite (handleAuthStateChange_user w u Halive). simpl.
    rewrite (new_calls_app w _ _ (after_calls w _ _ _)).
    repeat split; reflexivity.
  - rewrite (handleAuthStateChange_no_user w Halive). simpl.
    rewrite (new_calls_app w _ _ (after_calls w _ _ _)).
    repeat split; reflexivity.
Qed.

Lemma handleAuthStateChange_updates_host_witness :
  let w := world (provider_with_token "abc123") true (signed_in alice) in
  provider_alive w = true /\
  ClineProvider.state (provider (snd (handleAuthStateChange None w))) =
    {| ClineProvider.authToken := None; ClineProvider.userInfo := None |} /\
  ClineProvider.userInfo
    (ClineProvider.state (provider (snd (handleAuthStateChange (Some alice) w))))
    = Some alice_info.
Proof.
  intros w. split; [reflexivity|]. split.
  - exact (proj1 (proj2 (proj2
             (handleAuthStateChange_updates_host w None eq_refl)))).
  - pose proof (handleAuthStateChange_updates_host w (Some alice) eq_refl) as H.
    destruct H as (_ & _ & H & _).
    exact (f_equal ClineProvider.userInfo H).
Defined.

(** The callback does not touch the weak reference. *)
Lemma handleAuthStateChange_alive (user : option firebase.User) (w : World) :
  provider_alive (snd (handleAuthStateChange user w)) = provider_alive w.
Proof.
  destruct (provider_alive w) eqn:Halive.
  - destruct user as [u|].
    + rewrite (handleAuthStateChange_user w u Halive). simpl. exact Halive.
    + rewrite (handleAuthStateChange_no_user w Halive). simpl. exact Halive.
  - rewrite (handleAuthStateChange_reclaimed w user Halive). simpl.
    exact Halive.
Qed.


Lemma deliver_alive (events : list (option firebase.User)) (w : World) :
  provider_alive (deliver events w) = provider_alive w.
Proof.
  revert w. induction events as [|user events IH]; intros w; simpl.
  - reflexivity.
  - rewrite IH. apply handleAuthStateChange_alive.
Qed.





(** ** A reclaimed host *)

(** C8.  When the weak host reference no longer resolves, [restoreSession]
    and the auth-state callback both return without error and do nothing
    but log: the host state is untouched, there is no [getSecret],
    [setAuthToken], [setUserInfo] or [postStateToWebview] call, and no
    sign-in or sign-out request. *)
Theorem reclaimed_host_is_noop :
  forall (be : firebase.Backend) (user : option firebase.User) (w : World),
    provider_alive w = false ->
    (fst (restoreSession be w) = Returned tt /\
     only_logged w (snd (restoreSession be w)) /\
     new_calls w (snd (restoreSession be w)) =
       [Console_log "Attempting to restore session" NoData;
        Console_log "Provider reference lost during session restore" NoData])
    /\
    (fst (handleAuthStateChange user w) = Returned tt /\
     only_logged w (snd (handleAuthStateChange user w)) /\
     new_calls w (snd (handleAuthStateChange user w)) =
       [Console_log "Auth state changed" (DataUser user);
        Console_log "Provider reference lost" NoData]).
Proof.
  intros be user w Halive. unfold only_logged. split.
  - rewrite (restoreSession_reclaimed be w Halive). simpl.
    rewrite (new_calls_app w _ _ (after_calls w _ _ _)).
    repeat split; reflexivity.
  - rewrite (handleAuthStateChange_reclaimed w user Halive). simpl.
    rewrite (new_calls_app w _ _ (after_calls w _ _ _)).
    repeat split; reflexivity.
Qed.

Lemma reclaimed_host_is_noop_witness :
  let w := world (provider_with_token "abc123") false signed_out in
  provider_alive w = false /\
  provider (snd (restoreSession accepting w)) = provider_with_token "abc123" /\
  provider (snd (handleAuthStateChange (Some alice) w)) =
    provider_with_token "abc123".
Proof.
  intros w.
  pose proof (reclaimed_host_is_noop accepting (Some alice) w eq_refl) as H.
  destruct H as [(_ & (Hr & _) & _) (_ & (Hh & _) & _)].
  split; [reflexivity|]. split; [exact Hr | exact Hh].
Defined.

(** ** The explicit operations *)

(** C6.  [signInWithCustomToken(token)] and [signOut()] each log one line
    and make one request to the provider; the outcome of the operation is
    the outcome of that request, so a failure of the provider reaches the
    caller as the same error.  Neither makes any call on the host
    controller, and the host state is as before; a failed [signOut()]
    leaves the provider client as it was too. *)
Theorem explicit_operations_delegate :
  forall (be : firebase.Backend) (token : string) (w : World),
    (let w' := snd (signInWithCustomToken be token w) in
     fst (signInWithCustomToken be token w) =
       match firebase.signInWithCustomToken_answer be token with
       | inl e => Thrown e
       | inr _ => Returned tt
       end /\
     new_calls w w' =
       [Console_log "Signing in with custom token" (DataToken token);
        Firebase_signInWithCustomToken token] /\
     existsb is_provider_call (new_calls w w') = false /\
     provider w' = provider w)
    /\
    (let w' := snd (signOut be w) in
     fst (signOut be w) =
       match firebase.signOut_error be with
       | Some e => Thrown e
       | None => Returned tt
       end /\
     new_calls w w' = [Console_log "Signing out" NoData; Firebase_signOut] /\
     existsb is_provider_call (new_calls w w') = false /\
     provider w' = provider w /\
     auth w' =
       match firebase.signOut_error be with
       | Some _ => auth w
       | None => with_currentUser None (auth w)
       end).
Proof.
  intros be token w. split.
  - rewrite signInWithCustomToken_run.
    destruct (firebase.signInWithCustomToken_answer be token); simpl;
      rewrite (new_calls_app w _ _ (after_calls w _ _ _));
      repeat split; reflexivity.
  - rewrite signOut_run.
    destruct (firebase.signOut_error be); simpl;
      rewrite (new_calls_app w _ _ (after_calls w _ _ _));
      repeat split; reflexivity.
Qed.

(** A failing explicit sign-out: the error comes back to the caller and
    the signed-in host state stays. *)
Example signOut_failure_surfaces :
  let w := world (ClineProvider.setUserInfo (Some alice_info)
                    (provider_with_token "abc123")) true (signed_in alice) in
  fst (signOut rejecting w) = Thrown "auth/network" /\
  provider (snd (signOut rejecting w)) = provider w /\
  auth (snd (signOut rejecting w)) = auth w.
Proof. repeat split; reflexivity. Qed.

(** ** Construction *)

(** C9.  When [initializeApp] and [getAuth] do not throw and the
    persistence request fails with [e], the constructor returns normally.
    By then it has made the request, registered the auth-state observer
    and logged that, and started [restoreSession], which has run up to its
    first suspension point; the failure has not been reported yet.  What
    is left of the persistence promise chain is a suspended execution
    that, whenever the event loop resumes it, makes the one call
    [console.error("Error setting persistence:", e)] and settles
    normally; the persistence mode of the client stays as it was.
    Whatever the event loop does after the constructor has returned, in
    whatever order it resumes the two executions and delivers auth-state
    events, no rejection is left unhandled. *)
Theorem constructor_survives_persistence_failure :
  forall (be : firebase.Backend) (firebaseConfig : firebase.FirebaseOptions)
         (p : ClineProvider.t) (w : World) (e : firebase.FirebaseError),
    firebase.initializeApp_error be = None ->
    firebase.getAuth_error be = None ->
    firebase.setPersistence_error be = Some e ->
    exists (w1 w2 : World) (restoration : Res unit),
      let reaction :=
        Suspended
          (fun w' =>
             (record (Console_error "Error setting persistence:" e) w',
              Settled (Returned tt))) in
      constructor_body be firebaseConfig p w =
        (Returned [reaction; restoration], w2) /\
      new_calls w w1 =
        [Console_log "Initializing FirebaseAuthManager" (DataProvider p);
         Firebase_initializeApp firebaseConfig;
         Firebase_getAuth;
         Console_log "Firebase app initialized" (DataAppConfig firebaseConfig);
         Firebase_setPersistence firebase.browserLocalPersistence;
         Firebase_onAuthStateChanged;
         Console_log "Auth state change listener added" NoData] /\
      firebase.observers (auth w1) =
        firebase.observers (auth w)
          ++ [S (list_max (firebase.observers (auth w)))] /\
      firebase.persistence (auth w1) = firebase.persistence (auth w) /\
      provider w1 = p /\
      provider_alive w1 = true /\
      restoreSession_async be w1 = (w2, restoration) /\
      (forall schedule : list Action,
          unhandled
            (run_schedule schedule
               {| running := w2;
                  pending := [reaction; restoration];
                  unhandled := [] |}) = []).
Proof.
  intros be firebaseConfig p w e Hinit Hauth Hpers.
  exists (listening be firebaseConfig p w).
  exists (fst (restoreSession_async be (listening be firebaseConfig p w))).
  exists (snd (restoreSession_async be (listening be firebaseConfig p w))).
  cbv zeta.
  assert (Hreaction :
            persistence_reaction be =
            Suspended
              (fun w' =>
                 (record (Console_error "Error setting persistence:" e) w',
                  Settled (Returned tt)))).
  { unfold persistence_reaction, persistence_report. rewrite Hpers.
    reflexivity. }
  rewrite <- Hreaction.
  split; [exact (constructor_body_run be firebaseConfig p w Hinit Hauth)|].
  split; [apply new_calls_app; reflexivity|].
  split; [reflexivity|].
  split; [unfold listening; simpl; rewrite Hpers; reflexivity|].
  split; [reflexivity|]. split; [reflexivity|].
  split; [destruct (restoreSession_async be (listening be firebaseConfig p w));
          reflexivity|].
  intros schedule. apply run_schedule_harmless; [|reflexivity].
  simpl. constructor; [apply persistence_reaction_harmless|].
  constructor; [apply restoreSession_async_harmless | constructor].
Qed.

Lemma constructor_survives_persistence_failure_witness :
  let w := world empty_provider false signed_out in
  firebase.initializeApp_error rejecting = None /\
  firebase.getAuth_error rejecting = None /\
  firebase.setPersistence_error rejecting = Some "auth/persistence" /\
  exists (ts : list (Res unit)) (w2 : World),
    constructor_body rejecting config0 (provider_with_token "abc123") w =
      (Returned ts, w2) /\
    length ts = 2.
Proof.
  intros w.
  split; [reflexivity|]. split; [reflexivity|]. split; [reflexivity|].
  destruct (constructor_survives_persistence_failure
              rejecting config0 (provider_with_token "abc123") w
              "auth/persistence" eq_refl eq_refl eq_refl)
    as (w1 & w2 & restoration & Hbody & _).
  eexists. exists w2. split; [exact Hbody | reflexivity].
Defined.

(** ** Invariants of a constructed manager *)

Lemma forEach_dispose (ds : list vscode.Disposable) :
  forall w : World,
    exists a : firebase.Auth,
      forEach ds Disposable_dispose w =
        (match first_error ds with
         | Some e => Thrown e
         | None => Returned tt
         end,
         after w (provider w) a (map dispose_call (reached ds))) /\
      (ds = [] -> a = auth w).
Proof.
  induction ds as [|d ds IH]; intros w.
  - exists (auth w). split; [|reflexivity].
    destruct w as [p alive a ds' cs]. unfold after. simpl.
    rewrite app_nil_r. reflexivity.
  - destruct d as [id|name [e|]].
    + simpl forEach. unfold bind. simpl Disposable_dispose.
      destruct (IH (record (Firebase_unsubscribe id)
                      (set_auth (firebase.unsubscribe id (auth w)) w)))
        as (a & Hrun & _).
      exists a. split; [|discriminate].
      rewrite Hrun. unfold after. simpl. rewrite <- app_assoc. reflexivity.
    + exists (auth w). split; [|discriminate]. reflexivity.
    + simpl forEach. unfold bind. simpl Disposable_dispose.
      destruct (IH (record (Resource_dispose name) w)) as (a & Hrun & _).
      exists a. split; [|discriminate].
      rewrite Hrun. unfold after. simpl. rewrite <- app_assoc. reflexivity.
Qed.

Lemma dispose_run (w : World) :
  exists a : firebase.Auth,
    dispose w =
      match first_error (disposables w) with
      | Some e =>
          (Thrown e,
           after w (provider w) a
             (map dispose_call (reached (disposables w))))
      | None =>
          (Returned tt,
           after w (provider w) a
             (map dispose_call (reached (disposables w))
                ++ [Console_log "Disposables disposed"
                      (DataCount (length (disposables w)))]))
      end /\
    (disposables w = [] -> a = auth w).
Proof.
  destruct (forEach_dispose (disposables w) w) as (a & Hrun & Hnil).
  exists a. split; [|exact Hnil].
  unfold dispose, bind. rewrite Hrun.
  destruct (first_error (disposables w)); [reflexivity|].
  unfold console_log, emit, record, after. simpl.
  rewrite <- app_assoc. reflexivity.
Qed.

Lemma dispose_call_no_store (ds : list vscode.Disposable) :
  existsb is_token_store (map dispose_call ds) = false.
Proof.
  induction ds as [|[id|name error] ds IH]; simpl; auto.
Qed.

Lemma step_frame_after (w : World) (p : ClineProvider.t) (a : firebase.Auth)
  (cs : list Call) :
  existsb is_token_store cs = false ->
  (disposables w = [] -> firebase.observers a = firebase.observers (auth w)) ->
  step_frame w (after w p a cs).
Proof.
  intros Hcs Hobs. exists cs. repeat split; assumption.
Qed.

Lemma step_frame_refl (w : World) : step_frame w w.
Proof.
  exists []. rewrite app_nil_r. repeat split; reflexivity.
Qed.

Lemma step_frame_trans (w1 w2 w3 : World) :
  step_frame w1 w2 -> step_frame w2 w3 -> step_frame w1 w3.
Proof.
  intros (cs1 & Hc1 & Hs1 & Hd1 & Ho1) (cs2 & Hc2 & Hs2 & Hd2 & Ho2).
  exists (cs1 ++ cs2). split; [|split; [|split]].
  - rewrite Hc2, Hc1, app_assoc. reflexivity.
  - rewrite existsb_app, Hs1, Hs2. reflexivity.
  - rewrite Hd2, Hd1. reflexivity.
  - intros Hnil. rewrite Ho2, Ho1; auto. rewrite Hd1. exact Hnil.
Qed.

Lemma step_frame_step (s : Step) (w : World) : step_frame w (step s w).
Proof.
  destruct s as [be| |user|be token|be| |]; simpl step.
  - destruct (restoreSession_shape be w) as (p & a & cs & Hrun & Hobs & Hcs).
    rewrite Hrun. simpl. apply step_frame_after; auto.
  - apply step_frame_refl.
  - destruct (provider_alive w) eqn:Halive.
    + destruct user as [u|].
      * rewrite (handleAuthStateChange_user w u Halive). simpl.
        apply step_frame_after; reflexivity.
      * rewrite (handleAuthStateChange_no_user w Halive). simpl.
        apply step_frame_after; reflexivity.
    + rewrite (handleAuthStateChange_reclaimed w user Halive). simpl.
      apply step_frame_after; reflexivity.
  - rewrite signInWithCustomToken_run.
    destruct (firebase.signInWithCustomToken_answer be token); simpl;
      apply step_frame_after; reflexivity.
  - rewrite signOut_run.
    destruct (firebase.signOut_error be); simpl;
      apply step_frame_after; reflexivity.
  - destruct (dispose_run w) as (a & Hrun & Hnil).
    rewrite Hrun.
    destruct (first_error (disposables w)); simpl; apply step_frame_after.
    + apply dispose_call_no_store.
    + intros Hds. rewrite (Hnil Hds). reflexivity.
    + rewrite existsb_app, dispose_call_no_store. reflexivity.
    + intros Hds. rewrite (Hnil Hds). reflexivity.
  - exists []. rewrite app_nil_r. repeat split; reflexivity.
Qed.

Lemma step_frame_run (steps : list Step) :
  forall w : World, step_frame w (run steps w).
Proof.
  induction steps as [|s steps IH]; intros w; simpl.
  - apply step_frame_refl.
  - apply (step_frame_trans w (step s w)).
    + apply step_frame_step.
    + apply IH.
Qed.

(** ** The stored token *)

(** C7, as stated, fails: a sign-in that succeeds makes no [setAuthToken]
    call with the token, and a host that held no token before holds none
    afterwards, also once the auth-state callback for the signed-in user
    has run. *)
Lemma signIn_stores_no_token_counterexample :
  let w := world empty_provider true signed_out in
  let w' := snd (signInWithCustomToken accepting "abc123" w) in
  let w'' := deliver [Some alice] w' in
  fst (signInWithCustomToken accepting "abc123" w) = Returned tt /\
  firebase.currentUser (auth w') = Some alice /\
  ~ In (Provider_setAuthToken (Some "abc123")) (new_calls w w'') /\
  ClineProvider.getSecret "authToken" (provider w') = None /\
  ClineProvider.getSecret "authToken" (provider w'') = None.
Proof.
  intros w w' w''. repeat split; try reflexivity.
  vm_compute. intros H.
  repeat (destruct H as [H|H]; [discriminate H|]). exact H.
Qed.

(** C7, amended.  A sign-in through this class does not write the stored
    token: [signInWithCustomToken] makes no [setAuthToken] call and leaves
    the stored token as it was, so it is present afterwards exactly when
    it was present before.  No method of the class ever calls
    [setAuthToken] with a present token: over any sequence of method
    runs, callback deliveries and host reclamations, every [setAuthToken]
    call clears. *)
Theorem signIn_never_stores_token :
  forall (be : firebase.Backend) (token : string) (steps : list Step)
         (w : World),
    (let w' := snd (signInWithCustomToken be token w) in
     existsb is_setAuthToken (new_calls w w') = false /\
     ClineProvider.authToken (ClineProvider.state (provider w')) =
       ClineProvider.authToken (ClineProvider.state (provider w)))
    /\
    existsb is_token_store (new_calls w (run steps w)) = false.
Proof.
  intros be token steps w. split.
  - rewrite signInWithCustomToken_run.
    destruct (firebase.signInWithCustomToken_answer be token); simpl;
      rewrite (new_calls_app w _ _ (after_calls w _ _ _));
      split; reflexivity.
  - destruct (step_frame_run steps w) as (cs & Hcalls & Hstore & _).
    rewrite (new_calls_app w _ cs Hcalls). exact Hstore.
Qed.

(** ** Disposal *)

(** C10.  For every manager whose constructor returned: the disposables
    list is empty after construction and stays empty over any sequence of
    method runs, callback deliveries and host reclamations; [dispose()]
    then only logs a count of zero and leaves the provider client as it
    is; and the observer registered at construction is still registered
    after any such sequence, whether or not it contains [dispose()], and
    after a final [dispose()]. *)
Theorem disposables_stay_empty :
  forall (be : firebase.Backend) (firebaseConfig : firebase.FirebaseOptions)
         (p : ClineProvider.t) (w : World) (steps : list Step),
    fst (constructor be firebaseConfig p w) = Returned tt ->
    let w1 := snd (constructor be firebaseConfig p w) in
    let w2 := run steps w1 in
    let id := S (list_max (firebase.observers (auth w))) in
    disposables w1 = [] /\
    disposables w2 = [] /\
    dispose w2 =
      (Returned tt,
       after w2 (provider w2) (auth w2)
         [Console_log "Disposables disposed" (DataCount 0)]) /\
    In id (firebase.observers (auth w1)) /\
    In id (firebase.observers (auth w2)) /\
    In id (firebase.observers (auth (snd (dispose w2)))).
Proof.
  intros be firebaseConfig p w steps Hret w1 w2 id.
  destruct (constructor_returned be firebaseConfig p w Hret) as [Hinit Hauth].
  assert (H1 : disposables w1 = [] /\ In id (firebase.observers (auth w1))).
  { subst w1 id.
    destruct (constructor_shape be firebaseConfig p w Hinit Hauth)
      as (p' & a & cs & Hrun & Hobs & _).
    rewrite Hrun. simpl. split; [reflexivity|].
    rewrite Hobs. simpl. apply in_or_app. right. left. reflexivity. }
  destruct H1 as [Hds1 Hin1].
  destruct (step_frame_run steps w1) as (cs & _ & _ & Hds & Hobs).
  fold w2 in Hds, Hobs.
  assert (Hds2 : disposables w2 = []) by (rewrite Hds; exact Hds1).
  assert (Hin2 : In id (firebase.observers (auth w2)))
    by (rewrite (Hobs Hds1); exact Hin1).
  rewrite (dispose_nothing w2 Hds2). simpl.
  repeat split; assumption || reflexivity.
Qed.

Lemma disposables_stay_empty_witness :
  let w := world empty_provider false signed_out in
  let w1 := snd (constructor accepting config0 (provider_with_token "abc123") w)
  in
  let w2 := run [AuthStateChange (Some alice); Dispose; SignOut accepting] w1 in
  fst (constructor accepting config0 (provider_with_token "abc123") w) =
    Returned tt /\
  disposables w2 = [] /\
  In 1 (firebase.observers (auth (snd (dispose w2)))).
Proof.
  intros w w1 w2.
  pose proof (disposables_stay_empty accepting config0
                (provider_with_token "abc123") w
                [AuthStateChange (Some alice); Dispose; SignOut accepting]
                eq_refl) as H.
  destruct H as (_ & Hds & _ & _ & _ & Hin).
  split; [reflexivity|]. split; [exact Hds | exact Hin].
Defined.

(** * Further properties of the class *)

(** Case analysis on the path [restoreSession be w] takes, rewriting the
    run with the world it ends in. *)
Ltac restore_cases be w :=
  let H := fresh "Hdead" in
  let H1 := fresh "Halive" in
  let H2 := fresh "Huser" in
  let H3 := fresh "Htoken" in
  let H4 := fresh "Hnonempty" in
  let u := fresh "u" in
  let token := fresh "token" in
  let e := fresh "e" in
  let e' := fresh "e'" in
  let Ha := fresh "Hanswer" in
  let Ho := fresh "Hout" in
  destruct (restore_paths be w) as [H|u H1 H2|H1 H2 H3|token H1 H2 H3 H4];
  [ rewrite (restoreSession_reclaimed be w H)
  | rewrite (restoreSession_existing be w u H1 H2)
  | rewrite (restoreSession_no_token be w H1 H2 H3)
  | destruct (firebase.signInWithCustomToken_answer be token)
      as [e|u] eqn:Ha;
    [ destruct (firebase.signOut_error be) as [e'|] eqn:Ho;
      [ rewrite (restoreSession_cleanup_failed be w token H1 H2 H3 H4
                   e e' Ha Ho)
      | rewrite (restoreSession_cleanup be w token H1 H2 H3 H4 e Ha Ho) ]
    | rewrite (restoreSession_signed_in be w token H1 H2 H3 H4 u Ha) ] ].

(** ** Session restoration on every path *)

Lemma restoreSession_frame (be : firebase.Backend) (w : World) :
  fst (restoreSession be w) = Returned tt /\
  provider_alive (snd (restoreSession be w)) = provider_alive w /\
  disposables (snd (restoreSession be w)) = disposables w /\
  firebase.observers (auth (snd (restoreSession be w))) =
    firebase.observers (auth w) /\
  firebase.persistence (auth (snd (restoreSession be w))) =
    firebase.persistence (auth w).
Proof.
  restore_cases be w; simpl; repeat split; reflexivity.
Qed.

(** X1.  [restoreSession] never rejects, whatever the provider answers to
    the sign-in and to the sign-out: every provider failure is caught
    inside it.  It leaves the weak reference, the disposables, the
    registered observers and the persistence mode as they were. *)
Theorem restoreSession_catches_provider_failures :
  forall (be : firebase.Backend) (w : World),
    let w' := snd (restoreSession be w) in
    fst (restoreSession be w) = Returned tt /\
    provider_alive w' = provider_alive w /\
    disposables w' = disposables w /\
    firebase.observers (auth w') = firebase.observers (auth w) /\
    firebase.persistence (auth w') = firebase.persistence (auth w).
Proof.
  intros be w w'. subst w'. apply restoreSession_frame.
Qed.

(** X2.  On every path [restoreSession] makes at most one sign-in request
    and at most one sign-out request.  Either it makes no sign-out request
    and no [setAuthToken] call at all, or it has signed in exactly once,
    with the token read from the host, that sign-in failed, and exactly one
    sign-out request followed. *)
Theorem restoreSession_request_discipline :
  forall (be : firebase.Backend) (w : World),
    let cs := new_calls w (snd (restoreSession be w)) in
    length (filter is_signIn cs) <= 1 /\
    length (filter is_signOut cs) <= 1 /\
    ((existsb is_signOut cs = false /\ existsb is_setAuthToken cs = false) \/
     (exists (token : string) (e : firebase.FirebaseError),
         ClineProvider.getSecret "authToken" (provider w) = Some token /\
         signIn_tokens cs = [token] /\
         firebase.signInWithCustomToken_answer be token = inl e /\
         length (filter is_signOut cs) = 1)).
Proof.
  intros be w cs. subst cs.
  restore_cases be w; simpl snd;
    rewrite (new_calls_app w _ _ (after_calls w _ _ _)); simpl;
    (split; [lia|]); (split; [lia|]).
  - left. split; reflexivity.
  - left. split; reflexivity.
  - left. split; reflexivity.
  - right. exists token, e. rewrite getSecret_authToken.
    repeat split; assumption || reflexivity.
  - right. exists token, e. rewrite getSecret_authToken.
    repeat split; assumption || reflexivity.
  - left. split; reflexivity.
Qed.

Lemma truthy_absent_or_empty (v : option string) :
  v = None \/ v = Some "" -> truthy v = None.
Proof.
  intros [-> | ->]; reflexivity.
Qed.

(** X3.  With the host alive and nobody signed in, a stored token that is
    absent or the empty string makes [restoreSession] stop after reading
    it: the calls are a log line, one [getSecret("authToken")] and a log
    line; no request goes to the provider, and the host state is left
    exactly as it was, a profile it may still hold included. *)
Theorem restoreSession_without_token :
  forall (be : firebase.Backend) (w : World),
    provider_alive w = true ->
    firebase.currentUser (auth w) = None ->
    ClineProvider.getSecret "authToken" (provider w) = None \/
    ClineProvider.getSecret "authToken" (provider w) = Some "" ->
    let w' := snd (restoreSession be w) in
    fst (restoreSession be w) = Returned tt /\
    new_calls w w' =
      [Console_log "Attempting to restore session" NoData;
       Provider_getSecret "authToken";
       Console_log "No stored custom token found" NoData] /\
    provider w' = provider w /\
    auth w' = auth w.
Proof.
  intros be w Halive Huser Htok w'. subst w'.
  rewrite getSecret_authToken in Htok.
  rewrite (restoreSession_no_token be w Halive Huser
             (truthy_absent_or_empty _ Htok)). simpl.
  rewrite (new_calls_app w _ _ (after_calls w _ _ _)).
  repeat split; reflexivity.
Qed.

(** A host that still holds Alice's profile but no token. *)
Lemma restoreSession_without_token_witness :
  let w := world (ClineProvider.setUserInfo (Some alice_info) empty_provider)
             true signed_out in
  provider_alive w = true /\
  firebase.currentUser (auth w) = None /\
  ClineProvider.getSecret "authToken" (provider w) = None /\
  ClineProvider.userInfo
    (ClineProvider.state (provider (snd (restoreSession rejecting w)))) =
    Some alice_info.
Proof.
  intros w.
  pose proof (restoreSession_without_token rejecting w
                eq_refl eq_refl (or_introl eq_refl)) as H.
  destruct H as (_ & _ & Hp & _).
  split; [reflexivity|]. split; [reflexivity|]. split; [reflexivity|].
  exact (f_equal (fun p => ClineProvider.userInfo (ClineProvider.state p)) Hp).
Defined.

(** ** Construction, end to end *)

(** X4.  The constructor throws exactly when [initializeApp] or [getAuth]
    throws, and then with that error: by then it has only logged its first
    line and called the failing set-up function(s), so no persistence
    request was made, no auth-state observer was registered and no
    restoration was started.  When both succeed the constructor returns
    normally, whatever the persistence request, the sign-in and the
    sign-out answer. *)
Theorem constructor_throws_iff_setup_fails :
  forall (be : firebase.Backend) (firebaseConfig : firebase.FirebaseOptions)
         (p : ClineProvider.t) (w : World),
    let w' := snd (constructor be firebaseConfig p w) in
    match firebase.initializeApp_error be, firebase.getAuth_error be with
    | Some e, _ =>
        fst (constructor be firebaseConfig p w) = Thrown e /\
        new_calls w w' =
          [Console_log "Initializing FirebaseAuthManager" (DataProvider p);
           Firebase_initializeApp firebaseConfig] /\
        auth w' = auth w
    | None, Some e =>
        fst (constructor be firebaseConfig p w) = Thrown e /\
        new_calls w w' =
          [Console_log "Initializing FirebaseAuthManager" (DataProvider p);
           Firebase_initializeApp firebaseConfig;
           Firebase_getAuth] /\
        auth w' = auth w
    | None, None =>
        fst (constructor be firebaseConfig p w) = Returned tt
    end.
Proof.
  intros be firebaseConfig p w w'. subst w'.
  destruct (firebase.initializeApp_error be) as [e|] eqn:Hinit.
  - rewrite (constructor_initializeApp_throws be firebaseConfig p w e Hinit).
    simpl. split; [reflexivity|]. split; [|reflexivity].
    apply new_calls_app. reflexivity.
  - destruct (firebase.getAuth_error be) as [e|] eqn:Hauth.
    + rewrite (constructor_getAuth_throws be firebaseConfig p w e Hinit Hauth).
      simpl. split; [reflexivity|]. split; [|reflexivity].
      apply new_calls_app. reflexivity.
    + exact (constructor_settled be firebaseConfig p w Hinit Hauth).
Qed.

(** X5.  When the constructor returns, the world it leaves has: the weak
    reference alive, no disposables, exactly one more auth-state observer
    than before (appended to those already registered), and the local
    persistence mode if the persistence request succeeded, the previous
    mode if it failed; whichever path the restoration it started took. *)
Theorem constructor_registers_one_observer :
  forall (be : firebase.Backend) (firebaseConfig : firebase.FirebaseOptions)
         (p : ClineProvider.t) (w : World),
    fst (constructor be firebaseConfig p w) = Returned tt ->
    let w' := snd (constructor be firebaseConfig p w) in
    provider_alive w' = true /\
    disposables w' = [] /\
    firebase.observers (auth w') =
      firebase.observers (auth w)
        ++ [S (list_max (firebase.observers (auth w)))] /\
    firebase.persistence (auth w') =
      match firebase.setPersistence_error be with
      | Some _ => firebase.persistence (auth w)
      | None => Some firebase.browserLocalPersistence
      end.
Proof.
  intros be firebaseConfig p w Hret w'. subst w'.
  destruct (constructor_returned be firebaseConfig p w Hret) as [Hinit Hauth].
  destruct (constructor_shape be firebaseConfig p w Hinit Hauth)
    as (p' & a & cs & Hrun & Ho & Hp & _).
  rewrite Hrun. simpl. rewrite Ho, Hp. repeat split; reflexivity.
Qed.

Lemma constructor_registers_one_observer_witness :
  let w := {| provider := empty_provider; provider_alive := false;
              auth := {| firebase.currentUser := None;
                         firebase.persistence := None;
                         firebase.observers := [4; 2] |};
              disposables := []; calls := [] |} in
  fst (constructor accepting config0 (provider_with_token "abc123") w) =
    Returned tt /\
  firebase.observers
    (auth (snd (constructor accepting config0
                  (provider_with_token "abc123") w))) = [4; 2; 5] /\
  firebase.persistence
    (auth (snd (constructor accepting config0
                  (provider_with_token "abc123") w))) =
    Some firebase.browserLocalPersistence.
Proof.
  intros w.
  pose proof (constructor_registers_one_observer accepting config0
                (provider_with_token "abc123") w eq_refl) as H.
  destruct H as (_ & _ & Ho & Hp).
  split; [reflexivity|]. split; [exact Ho | exact Hp].
Defined.

(** X6.  If [initializeApp] and [getAuth] succeed and the provider client
    already has a current user when the constructor runs, then after the
    constructor the host controller passed to it holds that user's
    profile and is otherwise as passed in; the constructor has read no
    secret and made no sign-in request.  The host the world pointed to
    before plays no part. *)
Theorem constructor_restores_existing_user :
  forall (be : firebase.Backend) (firebaseConfig : firebase.FirebaseOptions)
         (p : ClineProvider.t) (w : World) (u : firebase.User),
    firebase.initializeApp_error be = None ->
    firebase.getAuth_error be = None ->
    firebase.currentUser (auth w) = Some u ->
    let w' := snd (constructor be firebaseConfig p w) in
    fst (constructor be firebaseConfig p w) = Returned tt /\
    provider w' =
      ClineProvider.setUserInfo
        (Some {| displayName := firebase.displayName u;
                 email := firebase.email u;
                 photoURL := firebase.photoURL u |}) p /\
    existsb is_getSecret (new_calls w w') = false /\
    existsb is_signIn (new_calls w w') = false.
Proof.
  intros be firebaseConfig p w u Hinit Hauth Huser w'. subst w'.
  rewrite (constructor_existing be firebaseConfig p w Hinit Hauth u Huser).
  simpl fst. simpl snd. rewrite new_calls_listening.
  split; [reflexivity|]. split; [reflexivity|].
  unfold persistence_report.
  destruct (firebase.setPersistence_error be); split; reflexivity.
Qed.

Lemma constructor_restores_existing_user_witness :
  let w := world empty_provider false (signed_in alice) in
  firebase.initializeApp_error rejecting = None /\
  firebase.getAuth_error rejecting = None /\
  firebase.currentUser (auth w) = Some alice /\
  provider (snd (constructor rejecting config0
                   (provider_with_token "abc123") w)) =
    ClineProvider.setUserInfo (Some alice_info) (provider_with_token "abc123").
Proof.
  intros w.
  pose proof (constructor_restores_existing_user rejecting config0
                (provider_with_token "abc123") w alice
                eq_refl eq_refl eq_refl) as H.
  destruct H as (_ & Hp & _).
  split; [reflexivity|]. split; [reflexivity|]. split; [reflexivity|].
  exact Hp.
Defined.

(** X7.  If [initializeApp] and [getAuth] succeed, nobody is signed in,
    the host passed to the constructor stores a non-empty token and the
    sign-in with it fails, the constructor still returns normally, and the
    host it was given ends with neither token nor profile; nothing was
    pushed to its webview. *)
Theorem constructor_failed_restore_clears_host :
  forall (be : firebase.Backend) (firebaseConfig : firebase.FirebaseOptions)
         (p : ClineProvider.t) (w : World) (token : string)
         (e : firebase.FirebaseError),
    firebase.initializeApp_error be = None ->
    firebase.getAuth_error be = None ->
    firebase.currentUser (auth w) = None ->
    ClineProvider.getSecret "authToken" p = Some token ->
    token <> "" ->
    firebase.signInWithCustomToken_answer be token = inl e ->
    let w' := snd (constructor be firebaseConfig p w) in
    fst (constructor be firebaseConfig p w) = Returned tt /\
    ClineProvider.state (provider w') =
      {| ClineProvider.authToken := None; ClineProvider.userInfo := None |} /\
    ClineProvider.webview (provider w') = ClineProvider.webview p.
Proof.
  intros be firebaseConfig p w token e Hinit Hauth Huser Htok Hne Ha w'.
  subst w'. rewrite getSecret_authToken in Htok.
  destruct (firebase.signOut_error be) as [e'|] eqn:Ho.
  - rewrite (constructor_cleanup_failed be firebaseConfig p w Hinit Hauth
               token Huser Htok Hne e e' Ha Ho).
    repeat split; reflexivity.
  - rewrite (constructor_cleanup be firebaseConfig p w Hinit Hauth
               token Huser Htok Hne e Ha Ho).
    repeat split; reflexivity.
Qed.

Lemma constructor_failed_restore_clears_host_witness :
  let p := ClineProvider.setUserInfo (Some alice_info)
             (provider_with_token "abc123") in
  let w := world empty_provider false signed_out in
  firebase.initializeApp_error rejecting = None /\
  firebase.getAuth_error rejecting = None /\
  firebase.currentUser (auth w) = None /\
  ClineProvider.getSecret "authToken" p = Some "abc123" /\
  "abc123" <> "" /\
  firebase.signInWithCustomToken_answer rejecting "abc123" =
    inl "auth/invalid-token" /\
  ClineProvider.state (provider (snd (constructor rejecting config0 p w))) =
    {| ClineProvider.authToken := None; ClineProvider.userInfo := None |}.
Proof.
  intros p w.
  assert (Hne : "abc123" <> "") by discriminate.
  pose proof (constructor_failed_restore_clears_host rejecting config0 p w
                "abc123" "auth/invalid-token"
                eq_refl eq_refl eq_refl eq_refl Hne eq_refl) as H.
  destruct H as (_ & Hs & _).
  split; [reflexivity|]. split; [reflexivity|]. split; [reflexivity|].
  split; [reflexivity|]. split; [exact Hne|]. split; [reflexivity|].
  exact Hs.
Defined.

(** ** The auth-state callback over sequences *)

Lemma handleAuthStateChange_no_request (user : option firebase.User)
  (w : World) :
  exists cs : list Call,
    calls (snd (handleAuthStateChange user w)) = calls w ++ cs /\
    existsb is_firebase_call cs = false /\
    auth (snd (handleAuthStateChange user w)) = auth w /\
    disposables (snd (handleAuthStateChange user w)) = disposables w.
Proof.
  destruct (provider_alive w) eqn:Halive.
  - destruct user as [u|].
    + rewrite (handleAuthStateChange_user w u Halive). simpl.
      eexists. repeat split; reflexivity.
    + rewrite (handleAuthStateChange_no_user w Halive). simpl.
      eexists. repeat split; reflexivity.
  - rewrite (handleAuthStateChange_reclaimed w user Halive). simpl.
    eexists. repeat split; reflexivity.
Qed.

Lemma deliver_no_request (events : list (option firebase.User)) :
  forall w : World,
    exists cs : list Call,
      calls (deliver events w) = calls w ++ cs /\
      existsb is_firebase_call cs = false /\
      auth (deliver events w) = auth w /\
      disposables (deliver events w) = disposables w.
Proof.
  induction events as [|user events IH]; intros w; simpl.
  - exists []. rewrite app_nil_r. repeat split; reflexivity.
  - destruct (handleAuthStateChange_no_request user w)
      as (cs1 & Hc1 & Hn1 & Ha1 & Hd1).
    destruct (IH (snd (handleAuthStateChange user w)))
      as (cs2 & Hc2 & Hn2 & Ha2 & Hd2).
    exists (cs1 ++ cs2). split; [|split; [|split]].
    + rewrite Hc2, Hc1, app_assoc. reflexivity.
    + rewrite existsb_app, Hn1, Hn2. reflexivity.
    + rewrite Ha2, Ha1. reflexivity.
    + rewrite Hd2, Hd1. reflexivity.
Qed.

(** X8.  The auth-state callback never calls the identity provider: over
    any sequence of delivered events, with the host alive or reclaimed, no
    call to the provider client is made, and the client (current user,
    persistence mode, observers), the disposables and the weak reference
    are as before.  Handling an event can therefore not cause a further
    event. *)
Theorem deliver_never_contacts_provider :
  forall (events : list (option firebase.User)) (w : World),
    existsb is_firebase_call (new_calls w (deliver events w)) = false /\
    auth (deliver events w) = auth w /\
    disposables (deliver events w) = disposables w /\
    provider_alive (deliver events w) = provider_alive w.
Proof.
  intros events w.
  destruct (deliver_no_request events w) as (cs & Hc & Hn & Ha & Hd).
  rewrite (new_calls_app w _ cs Hc).
  repeat split; try assumption. apply deliver_alive.
Qed.

(** X9.  With the host alive, delivering the same event twice in a row
    leaves the host state as after delivering it once; the second
    delivery only pushes that same state to the webview once more. *)
Theorem handleAuthStateChange_idempotent :
  forall (user : option firebase.User) (w : World),
    provider_alive w = true ->
    let once := provider (deliver [user] w) in
    let twice := provider (deliver [user; user] w) in
    ClineProvider.state twice = ClineProvider.state once /\
    ClineProvider.webview twice =
      ClineProvider.webview once ++ [ClineProvider.state once].
Proof.
  intros user w Halive once twice. subst once twice. simpl deliver.
  assert (Halive' :
            provider_alive (snd (handleAuthStateChange user w)) = true)
    by (rewrite handleAuthStateChange_alive; exact Halive).
  destruct user as [u|].
  - rewrite (handleAuthStateChange_user _ u Halive').
    rewrite (handleAuthStateChange_user w u Halive).
    split; reflexivity.
  - rewrite (handleAuthStateChange_no_user _ Halive').
    rewrite (handleAuthStateChange_no_user w Halive).
    split; reflexivity.
Qed.

Lemma handleAuthStateChange_idempotent_witness :
  let w := world (provider_with_token "abc123") true signed_out in
  provider_alive w = true /\
  ClineProvider.state (provider (deliver [Some alice; Some alice] w)) =
    ClineProvider.state (provider (deliver [Some alice] w)) /\
  ClineProvider.state (provider (deliver [None; None] w)) =
    ClineProvider.state (provider (deliver [None] w)).
Proof.
  intros w. split; [reflexivity|]. split.
  - exact (proj1 (handleAuthStateChange_idempotent (Some alice) w eq_refl)).
  - exact (proj1 (handleAuthStateChange_idempotent None w eq_refl)).
Defined.

(** ** Invariants of the host over any run *)

Lemma run_frame_after (w : World) (p : ClineProvider.t) (a : firebase.Auth)
  (cs : list Call) :
  forallb secret_key_ok cs = true ->
  (ClineProvider.authToken (ClineProvider.state p) = stored_token w \/
   ClineProvider.authToken (ClineProvider.state p) = None) ->
  (provider_alive w = false ->
   p = provider w /\ existsb is_provider_call cs = false) ->
  run_frame w (after w p a cs).
Proof.
  intros Hkey Htok Hdead. exists cs.
  split; [reflexivity|]. split; [exact Hkey|]. split; [exact Htok|].
  intros Hf. destruct (Hdead Hf) as [Hp Hn].
  split; [exact Hp|]. split; [exact Hf | exact Hn].
Qed.

Lemma run_frame_refl (w : World) : run_frame w w.
Proof.
  exists []. rewrite app_nil_r.
  split; [reflexivity|]. split; [reflexivity|]. split; [left; reflexivity|].
  intros Hf. split; [reflexivity|]. split; [exact Hf | reflexivity].
Qed.

Lemma run_frame_trans (w1 w2 w3 : World) :
  run_frame w1 w2 -> run_frame w2 w3 -> run_frame w1 w3.
Proof.
  intros (cs1 & Hc1 & Hk1 & Ht1 & Hr1) (cs2 & Hc2 & Hk2 & Ht2 & Hr2).
  exists (cs1 ++ cs2). split; [|split; [|split]].
  - rewrite Hc2, Hc1, app_assoc. reflexivity.
  - rewrite forallb_app, Hk1, Hk2. reflexivity.
  - destruct Ht2 as [E2|E2]; [|right; exact E2].
    destruct Ht1 as [E1|E1]; [left|right]; rewrite E2; exact E1.
  - intros Hf. destruct (Hr1 Hf) as (Hp1 & Ha1 & Hn1).
    destruct (Hr2 Ha1) as (Hp2 & Ha2 & Hn2).
    split; [rewrite Hp2; exact Hp1|]. split; [exact Ha2|].
    rewrite existsb_app, Hn1, Hn2. reflexivity.
Qed.

Lemma dispose_call_frame (ds : list vscode.Disposable) :
  forallb secret_key_ok (map dispose_call ds) = true /\
  existsb is_provider_call (map dispose_call ds) = false.
Proof.
  induction ds as [|[id|name error] ds [IH1 IH2]]; simpl; auto.
Qed.

(** Close a [run_frame] goal on a world written with [after]. *)
Ltac frame_after :=
  apply run_frame_after;
  [ reflexivity
  | unfold stored_token; first [left; reflexivity | right; reflexivity]
  | let Hf := fresh "Hf" in
    intros Hf; first [split; reflexivity | congruence] ].

Lemma run_frame_step (s : Step) (w : World) : run_frame w (step s w).
Proof.
  destruct s as [be| |user|be token|be| |]; simpl step.
  - restore_cases be w; simpl snd; frame_after.
  - apply run_frame_refl.
  - destruct (provider_alive w) eqn:Halive.
    + destruct user as [u|].
      * rewrite (handleAuthStateChange_user w u Halive). simpl snd.
        frame_after.
      * rewrite (handleAuthStateChange_no_user w Halive). simpl snd.
        frame_after.
    + rewrite (handleAuthStateChange_reclaimed w user Halive). simpl snd.
      frame_after.
  - rewrite signInWithCustomToken_run.
    destruct (firebase.signInWithCustomToken_answer be token); simpl snd;
      frame_after.
  - rewrite signOut_run.
    destruct (firebase.signOut_error be); simpl snd; frame_after.
  - destruct (dispose_run w) as (a & Hrun & _).
    rewrite Hrun.
    destruct (dispose_call_frame (reached (disposables w))) as [Hk Hn].
    destruct (first_error (disposables w)); simpl snd; apply run_frame_after.
    + exact Hk.
    + left. reflexivity.
    + intros _. split; [reflexivity | exact Hn].
    + rewrite forallb_app, Hk. reflexivity.
    + left. reflexivity.
    + intros _. split; [reflexivity|]. rewrite existsb_app, Hn. reflexivity.
  - exists []. rewrite app_nil_r.
    split; [reflexivity|]. split; [reflexivity|]. split; [left; reflexivity|].
    intros _. repeat split; reflexivity.
Qed.

Lemma run_frame_run (steps : list Step) :
  forall w : World, run_frame w (run steps w).
Proof.
  induction steps as [|s steps IH]; intros w; simpl.
  - apply run_frame_refl.
  - apply (run_frame_trans w (step s w)).
    + apply run_frame_step.
    + apply IH.
Qed.

(** X10.  Once the host controller has been reclaimed, no method of the
    manager and no delivered event ever reaches it again: over any
    sequence of method runs and callback deliveries the host is unchanged,
    no call is made on it, and the weak reference stays unresolved. *)
Theorem reclaimed_host_never_touched_again :
  forall (steps : list Step) (w : World),
    provider_alive w = false ->
    provider (run steps w) = provider w /\
    provider_alive (run steps w) = false /\
    existsb is_provider_call (new_calls w (run steps w)) = false.
Proof.
  intros steps w Hdead.
  destruct (run_frame_run steps w) as (cs & Hc & _ & _ & Hr).
  destruct (Hr Hdead) as (Hp & Ha & Hn).
  rewrite (new_calls_app w _ cs Hc).
  split; [exact Hp|]. split; [exact Ha | exact Hn].
Qed.

Lemma reclaimed_host_never_touched_again_witness :
  let w := world (provider_with_token "abc123") false signed_out in
  let steps := [RestoreSession accepting; AuthStateChange (Some alice);
                SignOut accepting; AuthStateChange None; Dispose] in
  provider_alive w = false /\
  provider (run steps w) = provider_with_token "abc123".
Proof.
  intros w steps. split; [reflexivity|].
  exact (proj1 (reclaimed_host_never_touched_again steps w eq_refl)).
Defined.

(** X11.  The manager can only clear the stored token: after any sequence
    of method runs, callback deliveries and host reclamations the host's
    stored token is either the one it had before or absent.  In
    particular a host without a token never gets one. *)
Theorem stored_token_only_cleared :
  forall (steps : list Step) (w : World),
    stored_token (run steps w) = stored_token w \/
    stored_token (run steps w) = None.
Proof.
  intros steps w.
  destruct (run_frame_run steps w) as (cs & _ & _ & Ht & _). exact Ht.
Qed.

(** X12.  The only secret the manager ever reads from the host is
    "authToken": over any sequence of method runs, callback deliveries and
    host reclamations, every [getSecret] call carries that key. *)
Theorem only_authToken_secret_is_read :
  forall (steps : list Step) (w : World),
    forallb secret_key_ok (new_calls w (run steps w)) = true.
Proof.
  intros steps w.
  destruct (run_frame_run steps w) as (cs & Hc & Hk & _).
  rewrite (new_calls_app w _ cs Hc). exact Hk.
Qed.

(** ** Disposal in general *)

Lemma reached_all (ds : list vscode.Disposable) :
  (forall d, In d ds -> dispose_error d = None) ->
  reached ds = ds /\ first_error ds = None.
Proof.
  induction ds as [|d ds IH]; intros Hok; simpl.
  - split; reflexivity.
  - rewrite (Hok d (or_introl eq_refl)).
    destruct (IH (fun x Hx => Hok x (or_intror Hx))) as [Hr He].
    rewrite Hr, He. split; reflexivity.
Qed.

Lemma reached_until (ds1 ds2 : list vscode.Disposable) (d : vscode.Disposable)
  (e : firebase.FirebaseError) :
  (forall x, In x ds1 -> dispose_error x = None) ->
  dispose_error d = Some e ->
  reached (ds1 ++ d :: ds2) = ds1 ++ [d] /\
  first_error (ds1 ++ d :: ds2) = Some e.
Proof.
  intros Hok Hd. induction ds1 as [|x ds1 IH]; simpl.
  - rewrite Hd. split; reflexivity.
  - rewrite (Hok x (or_introl eq_refl)).
    destruct (IH (fun y Hy => Hok y (or_intror Hy))) as [Hr He].
    rewrite Hr, He. split; reflexivity.
Qed.

(** X13.  [dispose()] disposes the held disposables in list order.  If
    none of them throws, it then logs their number and returns.  If one
    throws, [dispose()] throws that error at once: the disposables after
    it are not disposed and nothing is logged.  In both cases the list
    itself is left as it was and the host is not touched. *)
Theorem dispose_stops_at_first_failure :
  forall w : World,
    let w' := snd (dispose w) in
    ((forall d, In d (disposables w) -> dispose_error d = None) ->
     fst (dispose w) = Returned tt /\
     new_calls w w' =
       map dispose_call (disposables w)
         ++ [Console_log "Disposables disposed"
               (DataCount (length (disposables w)))]) /\
    (forall (ds1 ds2 : list vscode.Disposable) (d : vscode.Disposable)
            (e : firebase.FirebaseError),
        disposables w = ds1 ++ d :: ds2 ->
        (forall x, In x ds1 -> dispose_error x = None) ->
        dispose_error d = Some e ->
        fst (dispose w) = Thrown e /\
        new_calls w w' = map dispose_call (ds1 ++ [d])) /\
    disposables w' = disposables w /\
    provider w' = provider w.
Proof.
  intros w w'. subst w'.
  destruct (dispose_run w) as (a & Hrun & _).
  split; [|split].
  - intros Hok. destruct (reached_all (disposables w) Hok) as [Hr He].
    rewrite He, Hr in Hrun. rewrite Hrun. simpl.
    rewrite (new_calls_app w _ _ (after_calls w _ _ _)).
    split; reflexivity.
  - intros ds1 ds2 d e Hds Hok Hd.
    destruct (reached_until ds1 ds2 d e Hok Hd) as [Hr He].
    rewrite Hds in Hrun. rewrite He, Hr in Hrun.
    rewrite Hrun. simpl.
    rewrite (new_calls_app w _ _ (after_calls w _ _ _)).
    split; reflexivity.
  - rewrite Hrun.
    destruct (first_error (disposables w)); split; reflexivity.
Qed.

Lemma dispose_stops_at_first_failure_witness :
  let w := {| provider := empty_provider; provider_alive := true;
              auth := {| firebase.currentUser := None;
                         firebase.persistence := None;
                         firebase.observers := [1] |};
              disposables :=
                [vscode.Resource "statusBar" None;
                 vscode.Resource "watcher" (Some "disposed twice");
                 vscode.Unsubscribe 1];
              calls := [] |} in
  fst (dispose w) = Thrown "disposed twice" /\
  calls (snd (dispose w)) =
    [Resource_dispose "statusBar"; Resource_dispose "watcher"] /\
  firebase.observers (auth (snd (dispose w))) = [1].
Proof.
  intros w.
  destruct (dispose_stops_at_first_failure w) as (_ & Hfail & _).
  destruct (Hfail [vscode.Resource "statusBar" None] [vscode.Unsubscribe 1]
              (vscode.Resource "watcher" (Some "disposed twice"))
              "disposed twice" eq_refl) as [Hthrown Hcalls].
  - intros x [<-|[]]. reflexivity.
  - reflexivity.
  - split; [exact Hthrown|]. split; [exact Hcalls | reflexivity].
Defined.

(** ** Restoration followed by the provider's event *)

(** X14.  With the host alive, nobody signed in and a non-empty stored
    token that the provider accepts for user [u]: after [restoreSession]
    and the delivery of the auth-state event for [u], the host holds both
    the token it had and the profile of [u], that state has been pushed to
    the webview, and [getCurrentUser()] returns [u]. *)
Theorem restoreSession_then_event_signs_in :
  forall (be : firebase.Backend) (w : World) (token : string)
         (u : firebase.User),
    provider_alive w = true ->
    firebase.currentUser (auth w) = None ->
    ClineProvider.getSecret "authToken" (provider w) = Some token ->
    token <> "" ->
    firebase.signInWithCustomToken_answer be token = inr u ->
    let w' := deliver [Some u] (snd (restoreSession be w)) in
    let st := {| ClineProvider.authToken := Some token;
                 ClineProvider.userInfo :=
                   Some {| displayName := firebase.displayName u;
                           email := firebase.email u;
                           photoURL := firebase.photoURL u |} |} in
    ClineProvider.state (provider w') = st /\
    ClineProvider.webview (provider w') =
      ClineProvider.webview (provider w) ++ [st] /\
    fst (getCurrentUser w') = Returned (Some u).
Proof.
  intros be w token u Halive Huser Htok Hne Ha w' st. subst w' st.
  rewrite getSecret_authToken in Htok.
  rewrite (restoreSession_signed_in be w token Halive Huser Htok Hne u Ha).
  simpl deliver. simpl snd at 2.
  erewrite handleAuthStateChange_user by exact Halive. simpl snd.
  unfold getCurrentUser, auth_currentUser. simpl.
  rewrite Htok. repeat split; reflexivity.
Qed.

Lemma restoreSession_then_event_signs_in_witness :
  let w := world (provider_with_token "abc123") true signed_out in
  provider_alive w = true /\
  firebase.currentUser (auth w) = None /\
  ClineProvider.getSecret "authToken" (provider w) = Some "abc123" /\
  "abc123" <> "" /\
  firebase.signInWithCustomToken_answer accepting "abc123" = inr alice /\
  ClineProvider.state
    (provider (deliver [Some alice] (snd (restoreSession accepting w)))) =
    {| ClineProvider.authToken := Some "abc123";
       ClineProvider.userInfo := Some alice_info |}.
Proof.
  intros w.
  assert (Hne : "abc123" <> "") by discriminate.
  pose proof (restoreSession_then_event_signs_in accepting w "abc123" alice
                eq_refl eq_refl eq_refl Hne eq_refl) as H.
  destruct H as (Hs & _).
  split; [reflexivity|]. split; [reflexivity|]. split; [reflexivity|].
  split; [exact Hne|]. split; [reflexivity|]. exact Hs.
Defined.
